(** * PrcaOrchestrator: the pull-request code-analysis orchestrator

    A shallow embedding of [src/module/PrcaOrchestrator.ts] and the
    properties of its message selection ([filterMessages]), its constructor
    and its delete-then-create workflow
    ([postSonarQubeIssuesToPullRequest]).

    The file has two layers.  The value layer reads arrays as lists and
    follows the calls the orchestrator makes in a trace; the store layer
    (module [Store]) reads arrays and messages as objects of a mutable
    store, which is what the frame property of [filterMessages] needs. *)

From Stdlib Require Import ZArith QArith Bool List String Ascii Permutation Sorted Lia.
From stdpp Require Import gmap.
Import ListNotations.

Local Open Scope string_scope.
Local Open Scope list_scope.
Local Open Scope Z_scope.

(** ** JavaScript values the orchestrator handles *)

(** An argument that may be [undefined] (absent), [null] or a value. *)
Inductive JsOpt (A : Type) : Type :=
| JsUndefined
| JsNull
| JsValue (a : A).
Arguments JsUndefined {A}.
Arguments JsNull {A}.
Arguments JsValue {A} a.

(** A JavaScript number: the three special values and the finite ones.  A
    finite double is a rational, so finite values are carried exactly as
    [Q]; the two zeros are not told apart (no operation below does). *)
Inductive JsNumber : Type :=
| NaN
| PosInfinity
| NegInfinity
| Num (q : Q).

Definition Qltb (a b : Q) : bool := negb (Qle_bool b a).

(** [x < y] on numbers (IsLessThan; [false] when either side is NaN). *)
Definition js_lt (x y : JsNumber) : bool :=
  match x, y with
  | NaN, _ | _, NaN => false
  | PosInfinity, _ => false
  | _, PosInfinity => true
  | _, NegInfinity => false
  | NegInfinity, _ => true
  | Num a, Num b => Qltb a b
  end.

(** [x > y] is [y < x]. *)
Definition js_gt (x y : JsNumber) : bool := js_lt y x.

(** [x <= y]: false when either side is NaN, otherwise not [y < x]. *)
Definition js_le (x y : JsNumber) : bool :=
  match x, y with
  | NaN, _ | _, NaN => false
  | _, _ => negb (js_lt y x)
  end.

(** [isFinite]. *)
Definition js_isFinite (x : JsNumber) : bool :=
  match x with Num _ => true | _ => false end.

(** The number of an array length. *)
Definition of_length (n : nat) : JsNumber := Num (inject_Z (Z.of_nat n)).

(** ToIntegerOrInfinity of the language specification: NaN is 0, the
    infinities stay, a finite number is truncated towards zero. *)
Inductive IntegerOrInfinity : Type :=
| MinusInf
| Int (z : Z)
| PlusInf.

Definition ToIntegerOrInfinity (x : JsNumber) : IntegerOrInfinity :=
  match x with
  | NaN => Int 0
  | PosInfinity => PlusInf
  | NegInfinity => MinusInf
  | Num q => Int (Z.quot (Qnum q) (Z.pos (Qden q)))
  end.

(** Thrown values and rejection reasons. *)
Inductive JsError : Type :=
| Error (message : string)
| ReferenceError (message : string)
| TypeError (message : string)
| Foreign (tag : nat).

(** How a call ends: it returns or it throws. *)
Inductive Completion (A : Type) : Type :=
| Normal (a : A)
| Throw (e : JsError).
Arguments Normal {A} a.
Arguments Throw {A} e.

(** The fate of a promise: fulfilled, rejected, or never settled. *)
Inductive Promise (A : Type) : Type :=
| Fulfilled (a : A)
| Rejected (e : JsError)
| Pending.
Arguments Fulfilled {A} a.
Arguments Rejected {A} e.
Arguments Pending {A}.

(** ** Arrays as lists: the three Array.prototype methods used *)

(** [Array.prototype.slice(0, end)]: the relative end is
    [ToIntegerOrInfinity end]; a negative one counts from the length, and
    the final index is clamped to [0 .. length]. *)
Definition array_slice0 {A : Type} (end_ : JsNumber) (l : list A) : list A :=
  let len := Z.of_nat (length l) in
  let final :=
    match ToIntegerOrInfinity end_ with
    | MinusInf => 0
    | Int relativeEnd =>
        if relativeEnd <? 0 then Z.max (len + relativeEnd) 0
        else Z.min relativeEnd len
    | PlusInf => len
    end in
  firstn (Z.to_nat final) l.

Section ArraySort.
Context {A : Type}.
(** The comparison function, through the sign of its result. *)
Variable comparefn : A -> A -> Z.

(** [x] goes past every element it sorts strictly after. *)
Fixpoint sort_insert (x : A) (l : list A) : list A :=
  match l with
  | [] => [x]
  | y :: l' => if 0 <? comparefn x y then y :: sort_insert x l' else x :: l
  end.

(** [Array.prototype.sort(comparefn)] as the language specification has
    it since ES2019: a stable sort ([comparefn a b > 0] puts [b] first,
    and elements that compare as equal keep their order).  Insertion from
    the right end is one such sort.  For a comparison function that is not
    consistent the order is left to the implementation; what is proved
    below for an arbitrary comparison function uses only that the result
    is a rearrangement of the array. *)
Definition array_sort (l : list A) : list A := fold_right sort_insert [] l.
End ArraySort.

(** ** Messages *)

(** Modelled from the spec: the [Message] class is declared in [./Message],
    a module this file does not embed.  A finding has the [file] it belongs
    to, a numeric [priority] rank, and descriptive fields the orchestrator
    carries through without reading them. *)
Record Message : Type := mkMessage {
  content : string;
  file : string;
  line : Z;
  priority : Z
}.

(** Modelled from the spec: [Message.compare] is declared in [./Message]
    with the class; the orchestrator's comment says it implements sorting
    by descending priority, so a higher priority sorts first. *)
Definition Message_compare (a b : Message) : Z := priority b - priority a.

(** ** Collaborators *)

(** [ISonarQubeReportProcessor]: one synchronous call, which may throw. *)
Record ISonarQubeReportProcessor : Type := {
  FetchCommentsFromReport : string -> Completion (list Message)
}.

(** [IPrcaService]: three calls.  One run of the orchestrator makes each
    call at most once, so the answer of a call is a value of the service.
    [getModifiedFilesInPr] is called by the method itself, outside every
    callback, so how the call ends matters: it returns a promise, or it
    throws ([Throw] also stands for an answer that has no [then], on which
    the method's [.then] throws a TypeError).  The other two calls are made
    inside [then] callbacks, where a throw and a rejected promise come to
    the same rejection. *)
Record IPrcaService : Type := {
  getModifiedFilesInPr : Completion (Promise (list string));
  deleteCodeAnalysisComments : Promise unit;
  createCodeAnalysisThreads : list Message -> Promise unit
}.

(** [ILogger]: a write-only sink; [LogDebug] never throws.  What is written
    is kept in the trace. *)
Inductive ILogger : Type := TraceLogger.

(** The lines the orchestrator writes, each template literal with the
    values it interpolates. *)
Inductive LogLine : Type :=
| ReportPathLine (sqReportPath : JsOpt string)
| ChangedFilesLine (count : nat)
| RelevantLine (kept : nat) (allMessages : nat)
| LimitLine (messageLimit : JsNumber) (kept : nat)
| ToPostLine (count : nat).

(** What a run does to the outside, in order. *)
Inductive Event : Type :=
| LogDebug (l : LogLine)
| FetchCall (sqReportPath : string)
| ModifiedFilesCall
| DeleteCall
| CreateCall (messages : list Message).

(** ** The orchestrator object *)

Record PrcaOrchestrator : Type := mkPrcaOrchestrator {
  logger : ILogger;
  sqReportProcessor : ISonarQubeReportProcessor;
  PrcaService : IPrcaService;
  _messageLimit : JsNumber
}.

(** The initialiser of the [_messageLimit] field. *)
Definition default_messageLimit : JsNumber := Num (inject_Z 100).

(** The constructor: the two presence checks in their order, the field
    assignments, and the limit taken from the argument unless it is [null]
    or [undefined] (the two values [!= null] rules out). *)
Definition constructor (logger : ILogger)
    (sqReportProcessor : JsOpt ISonarQubeReportProcessor)
    (PrcaService : JsOpt IPrcaService)
    (messageLimit : JsOpt JsNumber) : Completion PrcaOrchestrator :=
  match sqReportProcessor with
  | JsNull | JsUndefined => Throw (ReferenceError "sqReportProcessor")
  | JsValue sqReportProcessor =>
      match PrcaService with
      | JsNull | JsUndefined => Throw (ReferenceError "PrcaService")
      | JsValue PrcaService =>
          Normal (mkPrcaOrchestrator logger sqReportProcessor PrcaService
                    (match messageLimit with
                     | JsValue messageLimit => messageLimit
                     | JsNull | JsUndefined => default_messageLimit
                     end))
      end
  end.

(** [x === null || x === undefined]. *)
Definition is_null_or_undefined {A : Type} (x : JsOpt A) : bool :=
  match x with
  | JsValue _ => false
  | JsNull | JsUndefined => true
  end.

(** The [messageLimit] getter. *)
Definition messageLimit (this : PrcaOrchestrator) : JsNumber :=
  _messageLimit this.

(** ** The run monad: the object, the trace, and the variable the
    callbacks share *)

Record Run : Type := mkRun {
  self : PrcaOrchestrator;
  trace : list Event;
  messagesToPost : JsOpt (list Message)
}.

Definition M (A : Type) : Type := Run -> A * Run.

Definition ret {A : Type} (a : A) : M A := fun r => (a, r).

Definition bind {A B : Type} (m : M A) (k : A -> M B) : M B :=
  fun r => let (a, r') := m r in k a r'.

Declare Scope run_scope.
Delimit Scope run_scope with run.
Notation "'let!' x ':=' m 'in' k" := (bind m (fun x => k))
  (at level 10, x name, m at level 100, k at level 200) : run_scope.
Notation "'do!' m 'in' k" := (bind m (fun _ => k))
  (at level 10, m at level 100, k at level 200) : run_scope.
Local Open Scope run_scope.

Definition emit (e : Event) : M unit :=
  fun r => (tt, mkRun (self r) (trace r ++ [e]) (messagesToPost r)).

Definition set_messagesToPost (v : JsOpt (list Message)) : M unit :=
  fun r => (tt, mkRun (self r) (trace r) v).

Definition get_messagesToPost : M (JsOpt (list Message)) :=
  fun r => (messagesToPost r, r).

Definition get_this : M PrcaOrchestrator :=
  fun r => (self r, r).

(** [p.then(onFulfilled)]: the callback runs only when [p] is fulfilled; a
    throw inside it rejects the new promise, a promise it returns is
    followed.  A rejected [p] rejects the new promise with the same
    reason. *)
Definition then_ {A B : Type} (p : Promise A)
    (onFulfilled : A -> M (Completion (Promise B))) : M (Promise B) :=
  match p with
  | Fulfilled a =>
      let! c := onFulfilled a in
      ret (match c with Normal q => q | Throw e => Rejected e end)
  | Rejected e => ret (Rejected e)
  | Pending => ret Pending
  end.

(** ** The methods *)

Section Methods.
(** [path.relative] of the host platform. *)
Variable relative : string -> string -> string.
(** The comparison function handed to [sort] ([Message.compare]). *)
Variable compare : Message -> Message -> Z.

(** The callback of the relevance filter: the loop over [filesChanged]
    with its early return. *)
Fixpoint isFileChanged (filesChanged : list string) (message : Message)
    : bool :=
  match filesChanged with
  | [] => false
  | fileChanged :: rest =>
      if String.eqb (relative fileChanged (file message)) ""
      then true
      else isFileChanged rest message
  end.

Definition filterMessages (filesChanged : list string)
    (allMessages : list Message) : M (list Message) :=
  let! this := get_this in
  let result := allMessages in
  let result := List.filter (isFileChanged filesChanged) result in
  do! emit (LogDebug (RelevantLine (length result) (length allMessages))) in
  let result := array_sort compare result in
  do! (if js_gt (of_length (length result)) (_messageLimit this)
       then emit (LogDebug (LimitLine (_messageLimit this) (length result)))
       else ret tt) in
  let result := array_slice0 (_messageLimit this) result in
  ret result.

Definition call_FetchCommentsFromReport (sqReportPath : string)
    : M (Completion (list Message)) :=
  let! this := get_this in
  do! emit (FetchCall sqReportPath) in
  ret (FetchCommentsFromReport (sqReportProcessor this) sqReportPath).

Definition call_getModifiedFilesInPr
    : M (Completion (Promise (list string))) :=
  let! this := get_this in
  do! emit ModifiedFilesCall in
  ret (getModifiedFilesInPr (PrcaService this)).

Definition call_deleteCodeAnalysisComments : M (Promise unit) :=
  let! this := get_this in
  do! emit DeleteCall in
  ret (deleteCodeAnalysisComments (PrcaService this)).

Definition call_createCodeAnalysisThreads (messages : list Message)
    : M (Promise unit) :=
  let! this := get_this in
  do! emit (CreateCall messages) in
  ret (createCodeAnalysisThreads (PrcaService this) messages).

Definition postSonarQubeIssuesToPullRequest (sqReportPath : JsOpt string)
    : M (Completion (Promise unit)) :=
  do! emit (LogDebug (ReportPathLine sqReportPath)) in
  match sqReportPath with
  | JsUndefined | JsNull =>
      ret (Throw (Error
        "Make sure a SonarQube enabled build task ran before this step."))
  | JsValue sqReportPath =>
      let! fetched := call_FetchCommentsFromReport sqReportPath in
      match fetched with
      | Throw e => ret (Throw e)
      | Normal allMessages =>
          do! set_messagesToPost JsNull in
          let! called := call_getModifiedFilesInPr in
          match called with
          | Throw e => ret (Throw e)
          | Normal p0 =>
              let! p1 := then_ p0 (fun filesChanged =>
                do! emit (LogDebug (ChangedFilesLine (length filesChanged))) in
                let! selected := filterMessages filesChanged allMessages in
                do! set_messagesToPost (JsValue selected) in
                ret (Normal (Fulfilled tt))) in
              let! p2 := then_ p1 (fun _ =>
                let! p := call_deleteCodeAnalysisComments in
                ret (Normal p)) in
              let! p3 := then_ p2 (fun _ =>
                let! toPost := get_messagesToPost in
                match toPost with
                | JsValue messages =>
                    do! emit (LogDebug (ToPostLine (length messages))) in
                    let! p := call_createCodeAnalysisThreads messages in
                    ret (Normal p)
                | JsNull | JsUndefined =>
                    ret (Throw (TypeError "messagesToPost.length"))
                end) in
              ret (Normal p3)
          end
      end
  end.
End Methods.

(** ** A caller that only attaches a rejection handler *)

(** What the statement [orchestrator.postSonarQubeIssuesToPullRequest(p)
    .catch(onRejected)] comes to: when the call throws, [catch] is never
    reached and the exception leaves the statement; when it returns a
    promise, the handler runs exactly if the promise is rejected. *)
Inductive Observation : Type :=
| Uncaught (e : JsError)
| HandlerRan (e : JsError)
| HandlerIdle.

Definition call_then_catch {A : Type} (call : Completion (Promise A))
    : Observation :=
  match call with
  | Throw e => Uncaught e
  | Normal (Rejected e) => HandlerRan e
  | Normal (Fulfilled _) | Normal Pending => HandlerIdle
  end.

(** ** The store layer: arrays and messages as mutable objects *)

Module Store.
Definition loc : Type := positive.

Inductive object : Type :=
| MessageObject (m : Message)
| StringArray (elements : list string)
| MessageArray (elements : list loc).

(** A step on the store; [None] when a reference does not hold what its
    type says. *)
Definition St (A : Type) : Type :=
  gmap loc object -> option (A * gmap loc object).

Definition ret {A : Type} (a : A) : St A := fun h => Some (a, h).

Definition bind {A B : Type} (m : St A) (k : A -> St B) : St B :=
  fun h => match m h with Some (a, h') => k a h' | None => None end.

Notation "'let?' x ':=' m 'in' k" := (bind m (fun x => k))
  (at level 10, x name, m at level 100, k at level 200).

Definition alloc (o : object) : St loc :=
  fun h => let l := fresh (dom h) in Some (l, <[l := o]> h).

Definition read_message (l : loc) : St Message :=
  fun h => match h !! l with
           | Some (MessageObject m) => Some (m, h)
           | _ => None
           end.

Definition read_strings (a : loc) : St (list string) :=
  fun h => match h !! a with
           | Some (StringArray xs) => Some (xs, h)
           | _ => None
           end.

Definition read_messages (a : loc) : St (list loc) :=
  fun h => match h !! a with
           | Some (MessageArray xs) => Some (xs, h)
           | _ => None
           end.

Definition write_messages (a : loc) (xs : list loc) : St unit :=
  fun h => match h !! a with
           | Some (MessageArray _) => Some (tt, <[a := MessageArray xs]> h)
           | _ => None
           end.

Fixpoint filterM (callback : loc -> St bool) (xs : list loc)
    : St (list loc) :=
  match xs with
  | [] => ret []
  | x :: xs' =>
      let? keep := callback x in
      let? rest := filterM callback xs' in
      ret (if keep then x :: rest else rest)
  end.

Fixpoint mapM (f : loc -> St Message) (xs : list loc) : St (list Message) :=
  match xs with
  | [] => ret []
  | x :: xs' =>
      let? m := f x in
      let? ms := mapM f xs' in
      ret (m :: ms)
  end.

(** [a.filter(callback)]: a new array with the elements kept. *)
Definition array_filter (callback : loc -> St bool) (a : loc) : St loc :=
  let? xs := read_messages a in
  let? kept := filterM callback xs in
  alloc (MessageArray kept).

(** [a.sort(comparefn)]: sorts [a] itself and returns it. *)
Definition array_sort_in_place (comparefn : Message -> Message -> Z)
    (a : loc) : St loc :=
  let? xs := read_messages a in
  let? ms := mapM read_message xs in
  let sorted :=
    array_sort (fun p q => comparefn (snd p) (snd q)) (combine xs ms) in
  let? _ := write_messages a (map fst sorted) in
  ret a.

(** [a.slice(0, end)]: a new array. *)
Definition array_slice (end_ : JsNumber) (a : loc) : St loc :=
  let? xs := read_messages a in
  alloc (MessageArray (array_slice0 end_ xs)).

Section Methods.
Variable relative : string -> string -> string.
Variable compare : Message -> Message -> Z.

(** [filterMessages] on references.  The two [LogDebug] calls are left
    out: they are handed strings built from lengths, never an array or
    a message. *)
Definition filterMessages (this : PrcaOrchestrator)
    (filesChanged allMessages : loc) : St loc :=
  let result := allMessages in
  let? result :=
    array_filter (fun message =>
      let? files := read_strings filesChanged in
      let? m := read_message message in
      ret (isFileChanged relative files m)) result in
  let? result := array_sort_in_place compare result in
  let? result := array_slice (_messageLimit this) result in
  ret result.
End Methods.

(** The messages an array of references stands for. *)
Definition deref (h : gmap loc object) (xs : list loc) : option (list Message) :=
  match mapM read_message xs h with
  | Some (ms, _) => Some ms
  | None => None
  end.
End Store.

(** ** A host and collaborators for concrete runs *)

(** The backslash, by its code. *)
Definition backslash : ascii := ascii_of_nat 92.

(** Letter case and slash direction folded away. *)
Definition fold_char (c : ascii) : ascii :=
  let n := nat_of_ascii c in
  if ((65 <=? n) && (n <=? 90))%nat then ascii_of_nat (n + 32)
  else if Ascii.eqb c "/" then backslash
  else c.

Fixpoint fold_path (p : string) : string :=
  match p with
  | EmptyString => EmptyString
  | String c rest => String (fold_char c) (fold_path rest)
  end.

(** A host whose [path.relative] is empty exactly for two paths that fold to
    the same string (only emptiness of the result is ever looked at). *)
Definition fold_relative (from to : string) : string :=
  if String.eqb (fold_path from) (fold_path to) then ""
  else ".." ++ String backslash to.

Definition finding (file : string) (priority : Z) (content : string) : Message :=
  mkMessage content file 1 priority.

Definition sample_messages : list Message :=
  [ finding "a.ts" 2 "first";
    finding "d.ts" 9 "second";
    finding "b.ts" 5 "third";
    finding "e.ts" 1 "fourth";
    finding "a.ts" 2 "fifth" ].

Definition sample_processor : ISonarQubeReportProcessor :=
  {| FetchCommentsFromReport := fun _ => Normal sample_messages |}.

Definition sample_service : IPrcaService :=
  {| getModifiedFilesInPr := Normal (Fulfilled ["a.ts"; "b.ts"; "c.ts"]);
     deleteCodeAnalysisComments := Fulfilled tt;
     createCodeAnalysisThreads := fun _ => Fulfilled tt |}.

(** The same service, with a delete call that fails. *)
Definition failing_delete_service : IPrcaService :=
  {| getModifiedFilesInPr := Normal (Fulfilled ["a.ts"; "b.ts"; "c.ts"]);
     deleteCodeAnalysisComments := Rejected (Foreign 503);
     createCodeAnalysisThreads := fun _ => Fulfilled tt |}.

Definition sample_orchestrator (messageLimit : JsNumber) : PrcaOrchestrator :=
  mkPrcaOrchestrator TraceLogger sample_processor sample_service messageLimit.

Definition failing_orchestrator : PrcaOrchestrator :=
  mkPrcaOrchestrator TraceLogger sample_processor failing_delete_service
    default_messageLimit.

Definition start (this : PrcaOrchestrator) : Run := mkRun this [] JsNull.

(** A store: the changed files at 1, the array of all messages at 2, its
    five messages at 3 to 7. *)
Definition sample_store : gmap Store.loc Store.object :=
  <[1%positive := Store.StringArray ["a.ts"; "b.ts"; "c.ts"]]>
  (<[2%positive := Store.MessageArray [3; 4; 5; 6; 7]%positive]>
  (<[3%positive := Store.MessageObject (finding "a.ts" 2 "first")]>
  (<[4%positive := Store.MessageObject (finding "d.ts" 9 "second")]>
  (<[5%positive := Store.MessageObject (finding "b.ts" 5 "third")]>
  (<[6%positive := Store.MessageObject (finding "e.ts" 1 "fourth")]>
  (<[7%positive := Store.MessageObject (finding "a.ts" 2 "fifth")]> ∅)))))).

(** ** Predicates the statements use *)

(** [a] may stand before [b]: its priority is not lower. *)
Definition not_below (a b : Message) : Prop := priority b <= priority a.

(** The findings of one priority. *)
Definition has_priority (p : Z) (m : Message) : bool := priority m =? p.

(** The error thrown for a missing report path. *)
Definition invalid_input : JsError :=
  Error "Make sure a SonarQube enabled build task ran before this step.".

(** The references [xs] hold the messages [ms] in [h]. *)
Definition holds (h : gmap Store.loc Store.object) (xs : list Store.loc)
    (ms : list Message) : Prop :=
  Forall2 (fun x m => h !! x = Some (Store.MessageObject m)) xs ms.

(** ** More collaborators for concrete runs *)

(** A calling event, as opposed to a line of the log. *)
Definition is_call (e : Event) : bool :=
  match e with
  | LogDebug _ => false
  | FetchCall _ | ModifiedFilesCall | DeleteCall | CreateCall _ => true
  end.

(** A report processor that cannot read the report. *)
Definition throwing_processor : ISonarQubeReportProcessor :=
  {| FetchCommentsFromReport := fun _ => Throw (Foreign 400) |}.

(** A service whose request for the changed files fails. *)
Definition failing_files_service : IPrcaService :=
  {| getModifiedFilesInPr := Normal (Rejected (Foreign 401));
     deleteCodeAnalysisComments := Fulfilled tt;
     createCodeAnalysisThreads := fun _ => Fulfilled tt |}.

(** A service whose request for the changed files throws at the call. *)
Definition throwing_files_service : IPrcaService :=
  {| getModifiedFilesInPr := Throw (TypeError "getModifiedFilesInPr");
     deleteCodeAnalysisComments := Fulfilled tt;
     createCodeAnalysisThreads := fun _ => Fulfilled tt |}.

(** A service whose create call fails. *)
Definition failing_create_service : IPrcaService :=
  {| getModifiedFilesInPr := Normal (Fulfilled ["a.ts"; "b.ts"; "c.ts"]);
     deleteCodeAnalysisComments := Fulfilled tt;
     createCodeAnalysisThreads := fun _ => Rejected (Foreign 500) |}.

Definition orchestrator_of (processor : ISonarQubeReportProcessor)
    (service : IPrcaService) : PrcaOrchestrator :=
  mkPrcaOrchestrator TraceLogger processor service default_messageLimit.

(** ** Facts about the array methods *)

Section ArrayFacts.
Context {A : Type}.
Variable comparefn : A -> A -> Z.

Lemma sort_insert_perm (x : A) (l : list A) :
  Permutation (sort_insert comparefn x l) (x :: l).
Proof.
  induction l as [|y l IH]; simpl; [reflexivity|].
  destruct (0 <? comparefn x y); [|reflexivity].
  rewrite IH. apply perm_swap.
Qed.

Lemma array_sort_perm (l : list A) : Permutation (array_sort comparefn l) l.
Proof.
  induction l as [|x l IH]; simpl; [reflexivity|].
  rewrite sort_insert_perm. now constructor.
Qed.

Lemma array_sort_length (l : list A) :
  length (array_sort comparefn l) = length l.
Proof. apply Permutation_length, array_sort_perm. Qed.

Lemma array_sort_In (x : A) (l : list A) :
  In x (array_sort comparefn l) <-> In x l.
Proof.
  split; apply Permutation_in;
    [apply array_sort_perm | symmetry; apply array_sort_perm].
Qed.

(** Whatever the end, [slice(0, end)] keeps an initial segment. *)
Lemma array_slice0_firstn (end_ : JsNumber) (l : list A) :
  exists k, array_slice0 end_ l = firstn k l.
Proof. unfold array_slice0. eauto. Qed.

Lemma array_slice0_split (end_ : JsNumber) (l : list A) :
  exists dropped, l = array_slice0 end_ l ++ dropped.
Proof.
  destruct (array_slice0_firstn end_ l) as [k ->].
  exists (skipn k l). symmetry. apply firstn_skipn.
Qed.

Lemma array_slice0_In (end_ : JsNumber) (x : A) (l : list A) :
  In x (array_slice0 end_ l) -> In x l.
Proof.
  destruct (array_slice0_split end_ l) as [dropped E]. intros H.
  rewrite E. apply in_or_app. now left.
Qed.
End ArrayFacts.

(** ** Facts about the cap *)

Lemma js_le_Num (a b : Q) : js_le (Num a) (Num b) = Qle_bool a b.
Proof. unfold js_le, js_lt, Qltb. now rewrite negb_involutive. Qed.

Lemma Qle_bool_inject_Z (n : Z) (q : Q) :
  Qle_bool (inject_Z n) q = true <-> n * Z.pos (Qden q) <= Qnum q.
Proof.
  unfold Qle_bool, inject_Z; simpl. rewrite Z.leb_le. lia.
Qed.

Lemma trunc_nonneg (q : Q) :
  0 <= Qnum q -> 0 <= Z.quot (Qnum q) (Z.pos (Qden q)).
Proof. intros H. apply Z.quot_pos; lia. Qed.

Lemma trunc_le (q : Q) :
  0 <= Qnum q -> Z.quot (Qnum q) (Z.pos (Qden q)) * Z.pos (Qden q) <= Qnum q.
Proof.
  intros H. rewrite Z.quot_div_nonneg by lia.
  rewrite Z.mul_comm. apply Z.mul_div_le. lia.
Qed.

Lemma le_trunc (n : Z) (q : Q) :
  0 <= n -> n * Z.pos (Qden q) <= Qnum q ->
  n <= Z.quot (Qnum q) (Z.pos (Qden q)).
Proof.
  intros Hn H. rewrite Z.quot_div_nonneg by nia.
  apply Z.div_le_lower_bound; lia.
Qed.

Section CapFacts.
Context {A : Type}.

(** Under a limit that is at least 0, the slice is no longer than the
    limit. *)
Lemma array_slice0_length_le (limit : JsNumber) (l : list A) :
  js_le (of_length 0) limit = true ->
  js_le (of_length (length (array_slice0 limit l))) limit = true.
Proof.
  unfold of_length. destruct limit as [| | |q]; try (cbn; discriminate).
  - reflexivity.
  - rewrite !js_le_Num, !Qle_bool_inject_Z. cbn [Z.of_nat]. intros Hq.
    assert (H0 : 0 <= Qnum q) by lia.
    pose proof (trunc_nonneg q H0) as Ht. pose proof (trunc_le q H0) as Hl.
    unfold array_slice0; simpl.
    destruct (Z.ltb_spec (Z.quot (Qnum q) (Z.pos (Qden q))) 0); [lia|].
    rewrite length_firstn. nia.
Qed.

(** A list no longer than the limit is returned whole. *)
Lemma array_slice0_all (limit : JsNumber) (l : list A) :
  js_le (of_length (length l)) limit = true ->
  array_slice0 limit l = l.
Proof.
  unfold of_length. destruct limit as [| | |q]; try (cbn; discriminate).
  - intros _. unfold array_slice0; simpl.
    rewrite Nat2Z.id. apply firstn_all.
  - rewrite js_le_Num, Qle_bool_inject_Z. intros Hq.
    pose proof (le_trunc (Z.of_nat (length l)) q ltac:(lia) Hq) as Ht.
    unfold array_slice0; simpl.
    destruct (Z.ltb_spec (Z.quot (Qnum q) (Z.pos (Qden q))) 0); [lia|].
    rewrite Z.min_r by lia. rewrite Nat2Z.id. apply firstn_all.
Qed.
End CapFacts.

(** ** Facts about the relevance filter and the returned value *)

Section SelectionFacts.
Variable relative : string -> string -> string.
Variable compare : Message -> Message -> Z.

Lemma isFileChanged_true (filesChanged : list string) (message : Message) :
  isFileChanged relative filesChanged message = true <->
  exists fileChanged, In fileChanged filesChanged /\
                      relative fileChanged (file message) = "".
Proof.
  induction filesChanged as [|c cs IH]; simpl.
  - split; [discriminate | intros (? & [] & _)].
  - destruct (String.eqb_spec (relative c (file message)) "") as [E|E].
    + split; [|reflexivity]. intros _. exists c. auto.
    + rewrite IH. split.
      * intros (x & Hin & Hx). exists x. auto.
      * intros (x & [->|Hin] & Hx); [contradiction|]. exists x. auto.
Qed.

(** What [filterMessages] returns, and what it leaves behind: the object
    and the shared variable as they were, and one or two lines more in
    the trace. *)
Lemma filterMessages_returns (filesChanged : list string)
    (allMessages : list Message) (r : Run) :
  exists lines,
    filterMessages relative compare filesChanged allMessages r =
      (array_slice0 (_messageLimit (self r))
         (array_sort compare
            (List.filter (isFileChanged relative filesChanged) allMessages)),
       mkRun (self r) (trace r ++ map LogDebug lines) (messagesToPost r)).
Proof.
  unfold filterMessages, bind, get_this, emit, ret; simpl.
  destruct (js_gt _ _); simpl.
  - eexists [_; _]. simpl. now rewrite <- app_assoc.
  - eexists [_]. reflexivity.
Qed.

Lemma filterMessages_value (filesChanged : list string)
    (allMessages : list Message) (r : Run) :
  fst (filterMessages relative compare filesChanged allMessages r) =
    array_slice0 (_messageLimit (self r))
      (array_sort compare
         (List.filter (isFileChanged relative filesChanged) allMessages)).
Proof.
  destruct (filterMessages_returns filesChanged allMessages r) as [? ->].
  reflexivity.
Qed.
End SelectionFacts.

(** ** Facts about sorting by [Message_compare] *)

Lemma StronglySorted_firstn {A : Type} (R : A -> A -> Prop) (k : nat)
    (l : list A) :
  StronglySorted R l -> StronglySorted R (firstn k l).
Proof.
  intros H. revert k. induction H as [|x l Hs IH Hx]; intros [|k]; simpl;
    try constructor; auto.
  rewrite List.Forall_forall in *. intros y Hy. apply Hx.
  rewrite <- (firstn_skipn k l). apply in_or_app. now left.
Qed.

Lemma sort_insert_sorted (x : Message) (l : list Message) :
  StronglySorted not_below l ->
  StronglySorted not_below (sort_insert Message_compare x l).
Proof.
  induction 1 as [|y l Hs IH Hy]; simpl.
  - repeat constructor.
  - unfold Message_compare at 1.
    destruct (Z.ltb_spec 0 (priority y - priority x)) as [Hlt|Hge].
    + constructor; [exact IH|].
      rewrite List.Forall_forall in *. intros z Hz.
      apply (Permutation_in _ (sort_insert_perm Message_compare x l)) in Hz.
      destruct Hz as [<-|Hz]; [unfold not_below; lia | now apply Hy].
    + constructor; [now constructor|].
      constructor; [unfold not_below; lia|].
      rewrite List.Forall_forall in *. intros z Hz.
      specialize (Hy z Hz). unfold not_below in *. lia.
Qed.

Lemma array_sort_sorted (l : list Message) :
  StronglySorted not_below (array_sort Message_compare l).
Proof.
  induction l as [|x l IH]; simpl; [constructor|].
  now apply sort_insert_sorted.
Qed.

Lemma has_priority_true (p : Z) (m : Message) :
  has_priority p m = true <-> priority m = p.
Proof. apply Z.eqb_eq. Qed.

Lemma has_priority_false (p : Z) (m : Message) :
  has_priority p m = false <-> priority m <> p.
Proof. apply Z.eqb_neq. Qed.

Lemma sort_insert_same (p : Z) (x : Message) (l : list Message) :
  priority x = p ->
  List.filter (has_priority p) (sort_insert Message_compare x l) =
    x :: List.filter (has_priority p) l.
Proof.
  intros Hx. apply has_priority_true in Hx as Hpx.
  induction l as [|y l IH]; simpl.
  - now rewrite Hpx.
  - unfold Message_compare at 1.
    destruct (Z.ltb_spec 0 (priority y - priority x)) as [Hlt|Hge]; simpl.
    + assert (Hy : has_priority p y = false)
        by (apply has_priority_false; lia).
      rewrite Hy. exact IH.
    + now rewrite Hpx.
Qed.

Lemma sort_insert_other (p : Z) (x : Message) (l : list Message) :
  priority x <> p ->
  List.filter (has_priority p) (sort_insert Message_compare x l) =
    List.filter (has_priority p) l.
Proof.
  intros Hx. apply has_priority_false in Hx as Hpx.
  induction l as [|y l IH]; simpl.
  - now rewrite Hpx.
  - destruct (0 <? Message_compare x y); simpl.
    + now rewrite IH.
    + now rewrite Hpx.
Qed.

(** The sort is stable: the findings of any one priority keep their
    order. *)
Lemma array_sort_stable (p : Z) (l : list Message) :
  List.filter (has_priority p) (array_sort Message_compare l) =
    List.filter (has_priority p) l.
Proof.
  induction l as [|x l IH]; simpl; [reflexivity|].
  destruct (has_priority p x) eqn:E.
  - apply has_priority_true in E.
    rewrite (sort_insert_same p x _ E). now rewrite IH.
  - apply has_priority_false in E.
    rewrite (sort_insert_other p x _ E). exact IH.
Qed.

(** ** The selection: relevance, order, cap *)

(** Where [slice(0, end)] cuts something off, one more element would be
    more than the end allows. *)
Lemma array_slice0_cut_is_full {A : Type} (limit : JsNumber)
    (l dropped : list A) :
  l = array_slice0 limit l ++ dropped ->
  dropped <> [] ->
  js_le (of_length (S (length (array_slice0 limit l)))) limit = false.
Proof.
  intros E Hd.
  assert (Hlen : (length (array_slice0 limit l) < length l)%nat).
  { rewrite E at 2. rewrite length_app.
    destruct dropped; [contradiction | simpl; lia]. }
  clear E Hd. revert Hlen. unfold of_length.
  destruct limit as [| | |q]; try reflexivity.
  - unfold array_slice0; simpl. rewrite Nat2Z.id, firstn_all. lia.
  - rewrite js_le_Num, <- not_true_iff_false, Qle_bool_inject_Z.
    unfold array_slice0. cbn [ToIntegerOrInfinity]. rewrite length_firstn.
    destruct (Z.le_gt_cases 0 (Qnum q)) as [Hq|Hq]; [|lia].
    pose proof (trunc_nonneg q Hq) as Ht.
    pose proof (Z.mul_succ_div_gt (Qnum q) (Z.pos (Qden q)) ltac:(lia)) as Hs.
    rewrite <- Z.quot_div_nonneg in Hs by lia.
    destruct (Z.ltb_spec (Z.quot (Qnum q) (Z.pos (Qden q))) 0); [lia|].
    intros Hlen. nia.
Qed.

(** C1: [filterMessages] returns only findings of the input whose file is
    path-equal to some changed file.  The relevant findings of the input
    are, rearranged, the output followed by the findings cut off; findings
    are cut off only where the output is full, one more being more than
    [messageLimit] allows, and none is cut off when the relevant findings
    are no more than [messageLimit].  So every relevant finding of the
    input is in the output unless the cap alone dropped it. *)
Theorem filterMessages_relevant :
  forall (relative : string -> string -> string)
         (compare : Message -> Message -> Z)
         (filesChanged : list string) (allMessages : list Message) (r : Run),
    (forall m,
        In m (fst (filterMessages relative compare filesChanged allMessages r)) ->
        In m allMessages /\
        exists fileChanged, In fileChanged filesChanged /\
                            relative fileChanged (file m) = "") /\
    exists dropped,
      Permutation
        (fst (filterMessages relative compare filesChanged allMessages r)
           ++ dropped)
        (List.filter (isFileChanged relative filesChanged) allMessages) /\
      (forall m,
          In m allMessages ->
          (exists fileChanged, In fileChanged filesChanged /\
                               relative fileChanged (file m) = "") ->
          In m (fst (filterMessages relative compare filesChanged
                       allMessages r))
          \/ In m dropped) /\
      (dropped <> [] ->
       js_le
         (of_length
            (S (length
                  (fst (filterMessages relative compare filesChanged
                          allMessages r)))))
         (messageLimit (self r)) = false) /\
      (js_le
         (of_length
            (length
               (List.filter (isFileChanged relative filesChanged)
                  allMessages)))
         (messageLimit (self r)) = true ->
       dropped = []).
Proof.
  intros relative compare C F r. rewrite filterMessages_value.
  unfold messageLimit.
  set (rel := List.filter (isFileChanged relative C) F).
  split.
  - intros m Hm. apply array_slice0_In, array_sort_In in Hm.
    apply filter_In in Hm. destruct Hm as [HF Hc].
    split; [exact HF|]. now apply isFileChanged_true.
  - destruct (array_slice0_split (_messageLimit (self r))
                (array_sort compare rel)) as [dropped E].
    exists dropped. repeat split.
    + rewrite <- E. apply array_sort_perm.
    + intros m HF Hc. apply in_app_or. rewrite <- E.
      apply array_sort_In. apply filter_In. split; [exact HF|].
      now apply isFileChanged_true.
    + intros Hd. now apply (array_slice0_cut_is_full _ _ dropped).
    + intros Hfit. rewrite array_slice0_all in E
        by (rewrite array_sort_length; exact Hfit).
      apply (f_equal (@length Message)) in E. rewrite length_app in E.
      destruct dropped; [reflexivity | simpl in E; lia].
Qed.

(** A selection the cap cuts: under a limit of 2 the third relevant finding
    is cut off, and three findings would be more than the limit. *)
Example selection_cut_at_limit :
  array_sort Message_compare
    (List.filter (isFileChanged fold_relative ["a.ts"; "b.ts"; "c.ts"])
       sample_messages) =
    fst (filterMessages fold_relative Message_compare
           ["a.ts"; "b.ts"; "c.ts"] sample_messages
           (start (sample_orchestrator (Num (inject_Z 2)))))
      ++ [finding "a.ts" 2 "fifth"] /\
  js_le (of_length 3) (Num (inject_Z 2)) = false /\
  js_le (of_length 2) (Num (inject_Z 2)) = true.
Proof. repeat split. Qed.

(** C2: with [Message.compare] sorting by descending priority, the output of
    [filterMessages] is sorted by non-increasing priority, and for every
    priority the findings of that priority in the output are, in their input
    order, an initial segment of the relevant findings of that priority. *)
Theorem filterMessages_sorted_stable :
  forall (relative : string -> string -> string)
         (filesChanged : list string) (allMessages : list Message) (r : Run),
    StronglySorted not_below
      (fst (filterMessages relative Message_compare filesChanged allMessages r))
    /\
    forall p, exists rest,
      List.filter (has_priority p)
        (List.filter (isFileChanged relative filesChanged) allMessages) =
      List.filter (has_priority p)
        (fst (filterMessages relative Message_compare filesChanged
                allMessages r)) ++ rest.
Proof.
  intros relative C F r. rewrite filterMessages_value.
  set (rel := List.filter (isFileChanged relative C) F).
  destruct (array_slice0_firstn (_messageLimit (self r))
              (array_sort Message_compare rel)) as [k ->].
  split.
  - apply StronglySorted_firstn, array_sort_sorted.
  - intros p. exists (List.filter (has_priority p)
                        (skipn k (array_sort Message_compare rel))).
    rewrite <- List.filter_app, firstn_skipn. symmetry.
    apply array_sort_stable.
Qed.

(** C3 (as amended): when the limit is at least 0, the output of
    [filterMessages] is no longer than the limit; and when the relevant
    findings are no more than the limit, the output is all of them, in
    sorted order. *)
Theorem filterMessages_cap :
  forall (relative : string -> string -> string)
         (compare : Message -> Message -> Z)
         (filesChanged : list string) (allMessages : list Message) (r : Run),
    js_le (of_length 0) (messageLimit (self r)) = true ->
    js_le
      (of_length
         (length
            (fst (filterMessages relative compare filesChanged allMessages r))))
      (messageLimit (self r)) = true /\
    (js_le
       (of_length
          (length
             (List.filter (isFileChanged relative filesChanged) allMessages)))
       (messageLimit (self r)) = true ->
     fst (filterMessages relative compare filesChanged allMessages r) =
       array_sort compare
         (List.filter (isFileChanged relative filesChanged) allMessages) /\
     Permutation
       (fst (filterMessages relative compare filesChanged allMessages r))
       (List.filter (isFileChanged relative filesChanged) allMessages)).
Proof.
  intros relative compare C F r Hlimit. rewrite filterMessages_value.
  unfold messageLimit in *. split.
  - now apply array_slice0_length_le.
  - intros Hfit. rewrite array_slice0_all.
    + split; [reflexivity | apply array_sort_perm].
    + now rewrite array_sort_length.
Qed.

Lemma filterMessages_cap_witness :
  js_le (of_length 0) (Num (inject_Z 2)) = true /\
  js_le
    (of_length
       (length
          (fst (filterMessages fold_relative Message_compare
                  ["a.ts"; "b.ts"; "c.ts"] sample_messages
                  (start (sample_orchestrator (Num (inject_Z 2)))))))) 
    (Num (inject_Z 2)) = true.
Proof.
  split; [reflexivity|].
  exact (proj1 (filterMessages_cap fold_relative Message_compare
                  ["a.ts"; "b.ts"; "c.ts"] sample_messages
                  (start (sample_orchestrator (Num (inject_Z 2))))
                  eq_refl)).
Defined.

(** C3 fails as stated: the constructor takes a limit of -1, and with three
    relevant findings [slice(0, -1)] keeps two, which is more than -1. *)
Lemma filterMessages_cap_negative_limit :
  constructor TraceLogger (JsValue sample_processor) (JsValue sample_service)
    (JsValue (Num (inject_Z (-1)))) =
    Normal (sample_orchestrator (Num (inject_Z (-1)))) /\
  length
    (fst (filterMessages fold_relative Message_compare
            ["a.ts"; "b.ts"; "c.ts"] sample_messages
            (start (sample_orchestrator (Num (inject_Z (-1))))))) = 2%nat /\
  js_le
    (of_length
       (length
          (fst (filterMessages fold_relative Message_compare
                  ["a.ts"; "b.ts"; "c.ts"] sample_messages
                  (start (sample_orchestrator (Num (inject_Z (-1)))))))))
    (messageLimit (sample_orchestrator (Num (inject_Z (-1))))) = false.
Proof. repeat split. Qed.

(** ** The workflow *)

Lemma log_lines_no_call (lines : list LogLine) (e : Event) :
  In e (map LogDebug lines) -> exists l, e = LogDebug l.
Proof.
  intros H. apply in_map_iff in H. destruct H as (l & <- & _). eauto.
Qed.

Ltac unfold_workflow :=
  unfold postSonarQubeIssuesToPullRequest, call_FetchCommentsFromReport,
    call_getModifiedFilesInPr, call_deleteCodeAnalysisComments,
    call_createCodeAnalysisThreads, then_, bind, ret, emit, get_this,
    set_messagesToPost, get_messagesToPost.

Ltac rewrite_filterMessages :=
  match goal with
  | |- context [filterMessages ?rel ?cmp ?c ?f ?r] =>
      let lines := fresh "lines" in
      destruct (filterMessages_returns rel cmp c f r) as [lines ->]
  end.

Ltac no_such_event :=
  repeat match goal with
         | H : _ \/ _ |- _ => destruct H
         | H : In _ (map LogDebug _) |- _ =>
             apply log_lines_no_call in H; destruct H
         end;
  try discriminate; try contradiction.

(** A call leaves the orchestrator object as it was. *)
Lemma postSonarQubeIssuesToPullRequest_self
    (relative : string -> string -> string)
    (compare : Message -> Message -> Z)
    (sqReportPath : JsOpt string) (r : Run) :
  self (snd (postSonarQubeIssuesToPullRequest relative compare
               sqReportPath r)) = self r.
Proof.
  unfold_workflow.
  destruct sqReportPath as [| |path]; simpl; try reflexivity.
  destruct (FetchCommentsFromReport _ path) as [allMessages|e0]; simpl;
    [|reflexivity].
  destruct (getModifiedFilesInPr _) as [[filesChanged|e1|]|e1]; simpl;
    try reflexivity.
  rewrite_filterMessages; simpl.
  destruct (deleteCodeAnalysisComments _); reflexivity.
Qed.

(** C4: when the delete call of the service is rejected, no run of
    [postSonarQubeIssuesToPullRequest] makes the create call, and a run
    that made the delete call returns a promise rejected with the reason
    of that failure. *)
Theorem delete_failure_aborts :
  forall (relative : string -> string -> string)
         (compare : Message -> Message -> Z)
         (sqReportPath : JsOpt string) (r : Run) (e : JsError),
    deleteCodeAnalysisComments (PrcaService (self r)) = Rejected e ->
    exists events,
      trace (snd (postSonarQubeIssuesToPullRequest relative compare
                    sqReportPath r)) = trace r ++ events /\
      (forall messages, ~ In (CreateCall messages) events) /\
      (In DeleteCall events ->
       fst (postSonarQubeIssuesToPullRequest relative compare sqReportPath r)
         = Normal (Rejected e)).
Proof.
  intros relative compare path r e Hdel. unfold_workflow.
  destruct path as [| |path]; simpl.
  3: destruct (FetchCommentsFromReport _ path) as [allMessages|e0]; simpl.
  3: destruct (getModifiedFilesInPr _) as [[filesChanged|e1|]|e1]; simpl.
  3: rewrite_filterMessages; simpl; rewrite Hdel; simpl.
  all: rewrite <- ?app_assoc; simpl.
  all: eexists; (split; [reflexivity|]).
  all: split; [intros messages Hin | intros Hin].
  all: simpl in Hin; rewrite ?in_app_iff in Hin; simpl in Hin.
  all: no_such_event; reflexivity.
Qed.

Lemma delete_failure_aborts_witness :
  deleteCodeAnalysisComments (PrcaService (self (start failing_orchestrator)))
    = Rejected (Foreign 503) /\
  exists events,
    trace (snd (postSonarQubeIssuesToPullRequest fold_relative Message_compare
                  (JsValue "report.json") (start failing_orchestrator))) =
      trace (start failing_orchestrator) ++ events /\
    (forall messages, ~ In (CreateCall messages) events) /\
    (In DeleteCall events ->
     fst (postSonarQubeIssuesToPullRequest fold_relative Message_compare
            (JsValue "report.json") (start failing_orchestrator))
       = Normal (Rejected (Foreign 503))).
Proof.
  split; [reflexivity|].
  exact (delete_failure_aborts fold_relative Message_compare
           (JsValue "report.json") (start failing_orchestrator)
           (Foreign 503) eq_refl).
Defined.

(** The run of the witness, step by step: the delete call is the last
    thing that happens. *)
Example failing_delete_run :
  postSonarQubeIssuesToPullRequest fold_relative Message_compare
    (JsValue "report.json") (start failing_orchestrator) =
  (Normal (Rejected (Foreign 503)),
   mkRun failing_orchestrator
     [ LogDebug (ReportPathLine (JsValue "report.json"));
       FetchCall "report.json";
       ModifiedFilesCall;
       LogDebug (ChangedFilesLine 3);
       LogDebug (RelevantLine 3 5);
       DeleteCall ]
     (JsValue [ finding "b.ts" 5 "third";
                finding "a.ts" 2 "first";
                finding "a.ts" 2 "fifth" ])).
Proof. reflexivity. Qed.

(** C5: called with a [null] or an [undefined] report path,
    [postSonarQubeIssuesToPullRequest] throws the error that asks for a
    SonarQube enabled build task to run first; all it did before is write
    one debug line, so neither the report processor nor the service was
    called. *)
Theorem missing_report_path_fails :
  forall (relative : string -> string -> string)
         (compare : Message -> Message -> Z) (r : Run),
    postSonarQubeIssuesToPullRequest relative compare JsNull r =
      (Throw invalid_input,
       mkRun (self r) (trace r ++ [LogDebug (ReportPathLine JsNull)])
         (messagesToPost r)) /\
    postSonarQubeIssuesToPullRequest relative compare JsUndefined r =
      (Throw invalid_input,
       mkRun (self r) (trace r ++ [LogDebug (ReportPathLine JsUndefined)])
         (messagesToPost r)).
Proof. intros. split; reflexivity. Qed.

(** C10: for a [null] or an [undefined] report path the failure is an
    exception thrown by the call, not a promise: no promise is returned,
    and a caller that only attaches a rejection handler to the result does
    not have its handler run; the exception leaves the calling
    statement. *)
Theorem missing_report_path_throws_synchronously :
  forall (relative : string -> string -> string)
         (compare : Message -> Message -> Z) (r : Run)
         (sqReportPath : JsOpt string),
    (sqReportPath = JsNull \/ sqReportPath = JsUndefined) ->
    fst (postSonarQubeIssuesToPullRequest relative compare sqReportPath r)
      = Throw invalid_input /\
    (forall p : Promise unit,
        fst (postSonarQubeIssuesToPullRequest relative compare sqReportPath r)
          <> Normal p) /\
    call_then_catch
      (fst (postSonarQubeIssuesToPullRequest relative compare sqReportPath r))
      = Uncaught invalid_input /\
    (forall e,
        call_then_catch
          (fst (postSonarQubeIssuesToPullRequest relative compare
                  sqReportPath r)) <> HandlerRan e).
Proof.
  intros relative compare r path [-> | ->]; repeat split; discriminate.
Qed.

Lemma missing_report_path_throws_synchronously_witness :
  (@JsNull string = JsNull \/ @JsNull string = JsUndefined) /\
  call_then_catch
    (fst (postSonarQubeIssuesToPullRequest fold_relative Message_compare
            JsNull (start (sample_orchestrator default_messageLimit))))
    = Uncaught invalid_input.
Proof.
  split; [now left|].
  exact (proj1 (proj2 (proj2
           (missing_report_path_throws_synchronously fold_relative
              Message_compare
              (start (sample_orchestrator default_messageLimit))
              JsNull (or_introl eq_refl))))).
Defined.

(** ** The constructor *)

(** C8: the constructor throws a ReferenceError naming the report processor
    when that is [null] or [undefined], one naming the service when only
    that is, and returns the orchestrator holding both when both are
    there; a failure is the constructor's own completion, so no object
    exists whose first use could fail instead. *)
Theorem constructor_requires_collaborators :
  forall (log : ILogger) (processor : JsOpt ISonarQubeReportProcessor)
         (service : JsOpt IPrcaService) (limit : JsOpt JsNumber),
    (is_null_or_undefined processor = true ->
     constructor log processor service limit =
       Throw (ReferenceError "sqReportProcessor")) /\
    (is_null_or_undefined processor = false ->
     is_null_or_undefined service = true ->
     constructor log processor service limit =
       Throw (ReferenceError "PrcaService")) /\
    (forall p s,
        processor = JsValue p -> service = JsValue s ->
        exists this,
          constructor log processor service limit = Normal this /\
          sqReportProcessor this = p /\
          PrcaService this = s).
Proof.
  intros logger sq svc ml. repeat split.
  - destruct sq; simpl; intros; try reflexivity; discriminate.
  - destruct sq, svc; simpl; intros; try reflexivity; discriminate.
  - intros p s -> ->. simpl. eauto.
Qed.

(** C7 (as amended): with both collaborators present, the constructed
    orchestrator's limit is the default 100 when the argument is absent
    ([undefined]) or [null], and otherwise the given number, whatever it
    is, NaN and the infinities included; neither method changes it. *)
Theorem constructor_messageLimit :
  forall (logger : ILogger) (p : ISonarQubeReportProcessor)
         (s : IPrcaService) (limit : JsOpt JsNumber),
  exists this,
    constructor logger (JsValue p) (JsValue s) limit = Normal this /\
    (is_null_or_undefined limit = true ->
     messageLimit this = Num (inject_Z 100)) /\
    (forall n, limit = JsValue n -> messageLimit this = n) /\
    (forall relative compare sqReportPath r,
        self r = this ->
        messageLimit
          (self (snd (postSonarQubeIssuesToPullRequest relative compare
                        sqReportPath r))) = messageLimit this) /\
    (forall relative compare filesChanged allMessages r,
        self r = this ->
        messageLimit
          (self (snd (filterMessages relative compare filesChanged
                        allMessages r))) = messageLimit this).
Proof.
  intros logger p s limit. eexists. split; [reflexivity|]. repeat split.
  - destruct limit; simpl; intros; try reflexivity; discriminate.
  - intros n ->. reflexivity.
  - intros relative compare path r <-.
    now rewrite postSonarQubeIssuesToPullRequest_self.
  - intros relative compare C F r <-.
    destruct (filterMessages_returns relative compare C F r) as [lines ->].
    reflexivity.
Qed.

(** C7 fails as stated: NaN and Infinity are not finite, and the
    constructor keeps them as the limit instead of the default. *)
Lemma constructor_keeps_non_finite_limit :
  js_isFinite NaN = false /\
  constructor TraceLogger (JsValue sample_processor) (JsValue sample_service)
    (JsValue NaN) = Normal (sample_orchestrator NaN) /\
  messageLimit (sample_orchestrator NaN) <> Num (inject_Z 100) /\
  js_isFinite PosInfinity = false /\
  constructor TraceLogger (JsValue sample_processor) (JsValue sample_service)
    (JsValue PosInfinity) = Normal (sample_orchestrator PosInfinity) /\
  messageLimit (sample_orchestrator PosInfinity) <> Num (inject_Z 100).
Proof. repeat split; discriminate. Qed.

(** ** The store layer: what [filterMessages] touches *)

Section StoreFacts.
Variable relative : string -> string -> string.
Variable compare : Message -> Message -> Z.

Lemma holds_insert_fresh h l o xs ms :
  h !! l = None -> holds h xs ms -> holds (<[l := o]> h) xs ms.
Proof.
  intros Hl H. induction H as [|x m xs ms Hx _ IH]; constructor; auto.
  rewrite lookup_insert_ne; [exact Hx | congruence].
Qed.

Lemma holds_insert_array h l ys xs ms :
  (exists zs, h !! l = Some (Store.MessageArray zs)) ->
  holds h xs ms -> holds (<[l := Store.MessageArray ys]> h) xs ms.
Proof.
  intros [zs Hl] H. induction H as [|x m xs ms Hx _ IH]; constructor; auto.
  rewrite lookup_insert_ne; [exact Hx | congruence].
Qed.

Lemma mapM_read_message h xs ms :
  holds h xs ms -> Store.mapM Store.read_message xs h = Some (ms, h).
Proof.
  induction 1 as [|x m xs ms Hx _ IH]; simpl; [reflexivity|].
  unfold Store.bind, Store.read_message at 1. rewrite Hx, IH. reflexivity.
Qed.

Lemma deref_holds h xs ms : holds h xs ms -> Store.deref h xs = Some ms.
Proof. intros H. unfold Store.deref. now rewrite (mapM_read_message h xs ms). Qed.

Lemma filterM_callback h filesChanged files xs ms :
  h !! filesChanged = Some (Store.StringArray files) ->
  holds h xs ms ->
  exists kept,
    Store.filterM
      (fun message =>
         Store.bind (Store.read_strings filesChanged) (fun files =>
         Store.bind (Store.read_message message) (fun m =>
         Store.ret (isFileChanged relative files m)))) xs h
      = Some (kept, h) /\
    holds h kept (List.filter (isFileChanged relative files) ms).
Proof.
  intros Hfiles. induction 1 as [|x m xs ms Hx _ (kept & IH & Hkept)]; simpl.
  - exists []. split; [reflexivity | constructor].
  - unfold Store.bind at 1 2 3, Store.read_strings at 1,
      Store.read_message at 1, Store.ret at 1.
    rewrite Hfiles, Hx. unfold Store.bind at 1. rewrite IH.
    unfold Store.ret. destruct (isFileChanged relative files m).
    + exists (x :: kept). split; [reflexivity | now constructor].
    + exists kept. split; [reflexivity | exact Hkept].
Qed.

Lemma sort_insert_snd (p : Store.loc * Message)
    (l : list (Store.loc * Message)) :
  map snd (sort_insert (fun p q => compare (snd p) (snd q)) p l) =
    sort_insert compare (snd p) (map snd l).
Proof.
  induction l as [|q l IH]; simpl; [reflexivity|].
  destruct (0 <? compare (snd p) (snd q)); simpl; [now rewrite IH | reflexivity].
Qed.

Lemma array_sort_snd (l : list (Store.loc * Message)) :
  map snd (array_sort (fun p q => compare (snd p) (snd q)) l) =
    array_sort compare (map snd l).
Proof.
  induction l as [|p l IH]; simpl; [reflexivity|].
  now rewrite sort_insert_snd, IH.
Qed.

Lemma holds_combine h xs ms :
  holds h xs ms ->
  List.Forall (fun p => h !! fst p = Some (Store.MessageObject (snd p)))
    (combine xs ms) /\
  map snd (combine xs ms) = ms.
Proof.
  induction 1 as [|x m xs ms Hx _ [IH1 IH2]]; simpl.
  - split; [constructor | reflexivity].
  - split; [now constructor | now rewrite IH2].
Qed.

Lemma holds_pairs h (l : list (Store.loc * Message)) :
  List.Forall (fun p => h !! fst p = Some (Store.MessageObject (snd p))) l ->
  holds h (map fst l) (map snd l).
Proof. induction 1; simpl; constructor; auto. Qed.

Lemma holds_sorted h xs ms :
  holds h xs ms ->
  holds h
    (map fst (array_sort (fun p q => compare (snd p) (snd q))
                (combine xs ms)))
    (array_sort compare ms).
Proof.
  intros H. destruct (holds_combine h xs ms H) as [Hall Hsnd].
  rewrite <- Hsnd at 2. rewrite <- array_sort_snd.
  apply holds_pairs. rewrite List.Forall_forall in *. intros p Hp.
  apply Hall. revert Hp. apply array_sort_In.
Qed.

Lemma holds_slice h (end_ : JsNumber) xs ms :
  holds h xs ms -> holds h (array_slice0 end_ xs) (array_slice0 end_ ms).
Proof.
  intros H. unfold array_slice0.
  rewrite (Forall2_length _ _ _ H). now apply Forall2_take.
Qed.
End StoreFacts.

(** C9: on a store where [filesChanged] is an array of strings and
    [allMessages] an array of references to messages, [filterMessages]
    returns a reference that did not exist before, and every object that
    did exist is as it was: the [allMessages] array with its elements in
    their order, the [filesChanged] array, and each message.  The array
    that is sorted in place is the one the relevance filter created.  The
    returned array holds what the value layer computes. *)
Theorem filterMessages_frame :
  forall (relative : string -> string -> string)
         (compare : Message -> Message -> Z) (this : PrcaOrchestrator)
         (filesChanged allMessages : Store.loc)
         (h : gmap Store.loc Store.object)
         (files : list string) (xs : list Store.loc) (ms : list Message),
    h !! filesChanged = Some (Store.StringArray files) ->
    h !! allMessages = Some (Store.MessageArray xs) ->
    holds h xs ms ->
    exists result h' ys,
      Store.filterMessages relative compare this filesChanged allMessages h
        = Some (result, h') /\
      h !! result = None /\
      (forall l o, h !! l = Some o -> h' !! l = Some o) /\
      h' !! allMessages = Some (Store.MessageArray xs) /\
      h' !! filesChanged = Some (Store.StringArray files) /\
      holds h' xs ms /\
      h' !! result = Some (Store.MessageArray ys) /\
      Store.deref h' ys =
        Some (fst (filterMessages relative compare files ms (start this))).
Proof.
  intros relative compare this fc am h files xs ms Hfc Ham Hms.
  destruct (filterM_callback relative h fc files xs ms Hfc Hms)
    as (kept & Hfilter & Hkept).
  set (rel := List.filter (isFileChanged relative files) ms) in *.
  set (a1 := fresh (dom h)).
  assert (Ha1 : h !! a1 = None) by (apply not_elem_of_dom, is_fresh).
  set (h1 := <[a1 := Store.MessageArray kept]> h).
  set (sorted := map fst (array_sort (fun p q => compare (snd p) (snd q))
                            (combine kept rel))).
  set (h2 := <[a1 := Store.MessageArray sorted]> h1).
  set (a2 := fresh (dom h2)).
  assert (Ha2 : h2 !! a2 = None) by (apply not_elem_of_dom, is_fresh).
  set (ys := array_slice0 (_messageLimit this) sorted).
  set (h3 := <[a2 := Store.MessageArray ys]> h2).
  assert (Hkept1 : holds h1 kept rel) by now apply holds_insert_fresh.
  assert (Hframe : forall l o, h !! l = Some o -> h3 !! l = Some o).
  { intros l o Hl. unfold h3, h2, h1.
    assert (l <> a1) by congruence.
    assert (l <> a2).
    { intros ->. unfold h2, h1 in Ha2.
      rewrite !lookup_insert_ne in Ha2 by congruence. congruence. }
    now rewrite !lookup_insert_ne by congruence. }
  assert (Hrun : Store.filterMessages relative compare this fc am h
                 = Some (a2, h3)).
  { unfold Store.filterMessages, Store.array_filter.
    unfold Store.bind at 1 2 3, Store.read_messages at 1. rewrite Ham.
    rewrite Hfilter. unfold Store.alloc at 1. fold a1. fold h1.
    unfold Store.array_sort_in_place.
    unfold Store.bind at 1 2 3 4, Store.read_messages at 1.
    unfold h1 at 1. rewrite lookup_insert_eq. fold h1.
    rewrite (mapM_read_message h1 kept rel Hkept1).
    unfold Store.write_messages. unfold h1 at 1. rewrite lookup_insert_eq.
    fold h1. fold sorted. fold h2. unfold Store.ret at 1.
    unfold Store.array_slice, Store.bind, Store.read_messages.
    unfold h2 at 1. rewrite lookup_insert_eq. fold h2.
    unfold Store.alloc, Store.ret. reflexivity. }
  exists a2, h3, ys. split; [exact Hrun|]. split.
  { destruct (h !! a2) as [o|] eqn:E; [|reflexivity].
    unfold h2, h1 in Ha2. destruct (decide (a2 = a1)) as [Heq|Hne].
    - rewrite Heq in E. congruence.
    - rewrite !lookup_insert_ne in Ha2 by congruence. congruence. }
  split; [exact Hframe|].
  split; [now apply Hframe|]. split; [now apply Hframe|]. split.
  { unfold holds in *. eapply Forall2_impl; [exact Hms|].
    intros x m Hx. now apply Hframe. }
  split; [unfold h3; apply lookup_insert_eq|].
  rewrite filterMessages_value. simpl. fold rel.
  apply deref_holds. unfold ys.
  apply holds_slice. unfold h3. apply holds_insert_fresh; [exact Ha2|].
  unfold h2. apply holds_insert_array.
  - exists kept. unfold h1. apply lookup_insert_eq.
  - unfold sorted. now apply holds_sorted.
Qed.

Lemma filterMessages_frame_witness :
  sample_store !! 1%positive = Some (Store.StringArray ["a.ts"; "b.ts"; "c.ts"])
  /\
  sample_store !! 2%positive =
    Some (Store.MessageArray [3; 4; 5; 6; 7]%positive) /\
  holds sample_store [3; 4; 5; 6; 7]%positive sample_messages /\
  exists result h' ys,
    Store.filterMessages fold_relative Message_compare
      (sample_orchestrator (Num (inject_Z 2))) 1%positive 2%positive
      sample_store = Some (result, h') /\
    sample_store !! result = None /\
    (forall l o, sample_store !! l = Some o -> h' !! l = Some o) /\
    h' !! 2%positive = Some (Store.MessageArray [3; 4; 5; 6; 7]%positive) /\
    h' !! 1%positive = Some (Store.StringArray ["a.ts"; "b.ts"; "c.ts"]) /\
    holds h' [3; 4; 5; 6; 7]%positive sample_messages /\
    h' !! result = Some (Store.MessageArray ys) /\
    Store.deref h' ys =
      Some (fst (filterMessages fold_relative Message_compare
                   ["a.ts"; "b.ts"; "c.ts"] sample_messages
                   (start (sample_orchestrator (Num (inject_Z 2)))))).
Proof.
  assert (H1 : sample_store !! 1%positive =
               Some (Store.StringArray ["a.ts"; "b.ts"; "c.ts"]))
    by reflexivity.
  assert (H2 : sample_store !! 2%positive =
               Some (Store.MessageArray [3; 4; 5; 6; 7]%positive))
    by reflexivity.
  assert (H3 : holds sample_store [3; 4; 5; 6; 7]%positive sample_messages)
    by (repeat constructor).
  split; [exact H1|]. split; [exact H2|]. split; [exact H3|].
  exact (filterMessages_frame fold_relative Message_compare
           (sample_orchestrator (Num (inject_Z 2))) 1%positive 2%positive
           sample_store ["a.ts"; "b.ts"; "c.ts"] [3; 4; 5; 6; 7]%positive
           sample_messages H1 H2 H3).
Defined.

(** The run of the witness: the result is the new array at 9, the sorted
    array at 8 is the one the filter made, and the two arguments at 1 and 2
    are as they were. *)
Example sample_store_run :
  exists h',
    Store.filterMessages fold_relative Message_compare
      (sample_orchestrator (Num (inject_Z 2))) 1%positive 2%positive
      sample_store = Some (9%positive, h') /\
    h' !! 9%positive = Some (Store.MessageArray [5; 3]%positive) /\
    h' !! 8%positive = Some (Store.MessageArray [5; 3; 7]%positive) /\
    h' !! 2%positive = Some (Store.MessageArray [3; 4; 5; 6; 7]%positive) /\
    h' !! 1%positive = Some (Store.StringArray ["a.ts"; "b.ts"; "c.ts"]).
Proof. eexists. split; [vm_compute; reflexivity|]. repeat split. Qed.

(** ** Two selections, evaluated *)

(** Three changed files, five findings, two of them on changed files, a
    limit of 10: the finding of priority 5 comes before the one of
    priority 2. *)
Example selection_orders_by_priority :
  fst (filterMessages fold_relative Message_compare ["a.ts"; "b.ts"; "c.ts"]
         [ finding "a.ts" 2 "one"; finding "d.ts" 7 "two";
           finding "b.ts" 5 "three"; finding "e.ts" 9 "four";
           finding "d.ts" 1 "five" ]
         (start (sample_orchestrator (Num (inject_Z 10))))) =
  [ finding "b.ts" 5 "three"; finding "a.ts" 2 "one" ].
Proof. reflexivity. Qed.

(** Equal priorities keep their input order, and a limit of 2 keeps the
    first two of the sorted findings. *)
Example selection_is_stable_and_capped :
  fst (filterMessages fold_relative Message_compare ["a.ts"; "b.ts"; "c.ts"]
         sample_messages (start (sample_orchestrator (Num (inject_Z 2))))) =
  [ finding "b.ts" 5 "third"; finding "a.ts" 2 "first" ].
Proof. reflexivity. Qed.

(** ** More about the selection *)

Lemma filterMessages_trace (relative : string -> string -> string)
    (compare : Message -> Message -> Z) (filesChanged : list string)
    (allMessages : list Message) (r : Run) :
  trace (snd (filterMessages relative compare filesChanged allMessages r)) =
    trace r ++
    LogDebug
      (RelevantLine
         (length (List.filter (isFileChanged relative filesChanged)
                    allMessages))
         (length allMessages)) ::
    (if js_gt
          (of_length
             (length
                (array_sort compare
                   (List.filter (isFileChanged relative filesChanged)
                      allMessages))))
          (_messageLimit (self r))
     then [LogDebug
             (LimitLine (_messageLimit (self r))
                (length
                   (array_sort compare
                      (List.filter (isFileChanged relative filesChanged)
                         allMessages))))]
     else []).
Proof.
  unfold filterMessages, bind, get_this, emit, ret; simpl.
  destruct (js_gt _ _); simpl; [|reflexivity].
  now rewrite <- app_assoc.
Qed.

Lemma isFileChanged_nil (relative : string -> string -> string)
    (l : list Message) :
  List.filter (isFileChanged relative []) l = [].
Proof. induction l; simpl; auto. Qed.

Lemma array_slice0_nil {A : Type} (end_ : JsNumber) :
  array_slice0 end_ (@nil A) = [].
Proof. unfold array_slice0. apply firstn_nil. Qed.

Lemma isFileChanged_same_members (relative : string -> string -> string)
    (C C' : list string) (m : Message) :
  (forall c, In c C <-> In c C') ->
  isFileChanged relative C m = isFileChanged relative C' m.
Proof.
  intros H. apply eq_true_iff_eq. rewrite !isFileChanged_true.
  split; intros (c & Hc & E); exists c; (split; [now apply H | exact E]).
Qed.

Lemma filter_all (A : Type) (f : A -> bool) (l : list A) :
  (forall x, In x l -> f x = true) -> List.filter f l = l.
Proof.
  induction l as [|x l IH]; simpl; intros H; [reflexivity|].
  rewrite (H x (or_introl eq_refl)). f_equal. apply IH. auto.
Qed.

Lemma sort_insert_head (x : Message) (l : list Message) :
  List.Forall (not_below x) l -> sort_insert Message_compare x l = x :: l.
Proof.
  destruct 1 as [|y l Hy _]; simpl; [reflexivity|].
  unfold Message_compare, not_below in *.
  destruct (Z.ltb_spec 0 (priority y - priority x)); [lia | reflexivity].
Qed.

(** Sorting a list that is already in order changes nothing. *)
Lemma array_sort_sorted_id (l : list Message) :
  StronglySorted not_below l -> array_sort Message_compare l = l.
Proof.
  induction 1 as [|x l Hs IH Hx]; simpl; [reflexivity|].
  rewrite IH. now apply sort_insert_head.
Qed.

Lemma StronglySorted_app_order {A : Type} (R : A -> A -> Prop)
    (l1 l2 : list A) :
  StronglySorted R (l1 ++ l2) ->
  forall x y, In x l1 -> In y l2 -> R x y.
Proof.
  induction l1 as [|a l1 IH]; simpl; intros H x y Hx Hy; [contradiction|].
  inversion H as [|? ? Hs Ha]; subst. destruct Hx as [<-|Hx].
  - rewrite List.Forall_forall in Ha. apply Ha, in_or_app. now right.
  - now apply IH.
Qed.

Lemma array_slice0_of_length {A : Type} (n : nat) (l : list A) :
  array_slice0 (of_length n) l = firstn n l.
Proof.
  unfold array_slice0, of_length; simpl. rewrite Z.quot_1_r.
  destruct (Z.ltb_spec (Z.of_nat n) 0); [lia|].
  destruct (Nat.le_gt_cases n (length l)).
  - rewrite Z.min_l by lia. now rewrite Nat2Z.id.
  - rewrite Z.min_r by lia. rewrite Nat2Z.id.
    rewrite firstn_all. symmetry. apply firstn_all2. lia.
Qed.

(** X1: with no changed file, or with no finding, nothing is selected. *)
Theorem filterMessages_empty_inputs :
  forall (relative : string -> string -> string)
         (compare : Message -> Message -> Z)
         (filesChanged : list string) (allMessages : list Message) (r : Run),
    fst (filterMessages relative compare [] allMessages r) = [] /\
    fst (filterMessages relative compare filesChanged [] r) = [].
Proof.
  intros. rewrite !filterMessages_value, isFileChanged_nil. simpl.
  split; apply array_slice0_nil.
Qed.

(** X2: only the members of [filesChanged] matter to the selection, not
    their order or how often each occurs. *)
Theorem filterMessages_changed_files_as_set :
  forall (relative : string -> string -> string)
         (compare : Message -> Message -> Z)
         (filesChanged filesChanged' : list string)
         (allMessages : list Message) (r : Run),
    (forall c, In c filesChanged <-> In c filesChanged') ->
    fst (filterMessages relative compare filesChanged allMessages r) =
    fst (filterMessages relative compare filesChanged' allMessages r).
Proof.
  intros relative compare C C' F r H. rewrite !filterMessages_value.
  do 2 f_equal. apply filter_ext. intros m.
  now apply isFileChanged_same_members.
Qed.

Lemma filterMessages_changed_files_as_set_witness :
  (forall c, In c ["a.ts"; "b.ts"] <-> In c ["b.ts"; "a.ts"; "a.ts"]) /\
  fst (filterMessages fold_relative Message_compare ["a.ts"; "b.ts"]
         sample_messages (start (sample_orchestrator default_messageLimit))) =
  fst (filterMessages fold_relative Message_compare ["b.ts"; "a.ts"; "a.ts"]
         sample_messages (start (sample_orchestrator default_messageLimit))).
Proof.
  assert (H : forall c, In c ["a.ts"; "b.ts"] <-> In c ["b.ts"; "a.ts"; "a.ts"])
    by (intros c; simpl; tauto).
  split; [exact H|].
  exact (filterMessages_changed_files_as_set fold_relative Message_compare
           ["a.ts"; "b.ts"] ["b.ts"; "a.ts"; "a.ts"] sample_messages
           (start (sample_orchestrator default_messageLimit)) H).
Defined.

(** X3: under a limit that is at least 0 and with [Message.compare],
    selecting again from a selection returns it unchanged. *)
Theorem filterMessages_idempotent :
  forall (relative : string -> string -> string)
         (filesChanged : list string) (allMessages : list Message) (r : Run),
    js_le (of_length 0) (messageLimit (self r)) = true ->
    fst (filterMessages relative Message_compare filesChanged
           (fst (filterMessages relative Message_compare filesChanged
                   allMessages r)) r) =
    fst (filterMessages relative Message_compare filesChanged allMessages r).
Proof.
  intros relative C F r Hlimit. unfold messageLimit in Hlimit.
  rewrite (filterMessages_value relative Message_compare C F r).
  set (out := array_slice0 _ _). rewrite filterMessages_value.
  assert (Hsorted : StronglySorted not_below out).
  { unfold out.
    destruct (array_slice0_firstn (_messageLimit (self r))
                (array_sort Message_compare
                   (List.filter (isFileChanged relative C) F))) as [k ->].
    apply StronglySorted_firstn, array_sort_sorted. }
  rewrite filter_all.
  - rewrite array_sort_sorted_id by exact Hsorted.
    apply array_slice0_all. unfold out.
    now apply array_slice0_length_le.
  - intros m Hm. unfold out in Hm.
    apply array_slice0_In, array_sort_In, filter_In in Hm. tauto.
Qed.

Lemma filterMessages_idempotent_witness :
  js_le (of_length 0) (Num (inject_Z 2)) = true /\
  fst (filterMessages fold_relative Message_compare ["a.ts"; "b.ts"; "c.ts"]
         (fst (filterMessages fold_relative Message_compare
                 ["a.ts"; "b.ts"; "c.ts"] sample_messages
                 (start (sample_orchestrator (Num (inject_Z 2))))))
         (start (sample_orchestrator (Num (inject_Z 2))))) =
  fst (filterMessages fold_relative Message_compare ["a.ts"; "b.ts"; "c.ts"]
         sample_messages (start (sample_orchestrator (Num (inject_Z 2))))).
Proof.
  split; [reflexivity|].
  exact (filterMessages_idempotent fold_relative ["a.ts"; "b.ts"; "c.ts"]
           sample_messages (start (sample_orchestrator (Num (inject_Z 2))))
           eq_refl).
Defined.

(** X4: with [Message.compare], what the cap cuts off never outranks what
    it keeps: every finding cut off has a priority no higher than every
    finding returned. *)
Theorem filterMessages_cap_drops_lowest :
  forall (relative : string -> string -> string)
         (filesChanged : list string) (allMessages : list Message) (r : Run),
  exists dropped,
    array_sort Message_compare
      (List.filter (isFileChanged relative filesChanged) allMessages) =
      fst (filterMessages relative Message_compare filesChanged allMessages r)
        ++ dropped /\
    forall kept d,
      In kept
        (fst (filterMessages relative Message_compare filesChanged
                allMessages r)) ->
      In d dropped ->
      priority d <= priority kept.
Proof.
  intros relative C F r. rewrite filterMessages_value.
  destruct (array_slice0_split (_messageLimit (self r))
              (array_sort Message_compare
                 (List.filter (isFileChanged relative C) F)))
    as [dropped E].
  exists dropped. split; [exact E|]. intros kept d Hk Hd.
  pose proof (array_sort_sorted (List.filter (isFileChanged relative C) F))
    as Hs.
  rewrite E in Hs.
  exact (StronglySorted_app_order not_below _ _ Hs kept d Hk Hd).
Qed.

(** X5: when the limit is a natural number [n], the selection has exactly
    [min n k] findings, [k] being the number of relevant ones. *)
Theorem filterMessages_length :
  forall (relative : string -> string -> string)
         (compare : Message -> Message -> Z)
         (filesChanged : list string) (allMessages : list Message) (r : Run)
         (n : nat),
    messageLimit (self r) = of_length n ->
    length (fst (filterMessages relative compare filesChanged allMessages r)) =
      Nat.min n
        (length (List.filter (isFileChanged relative filesChanged)
                   allMessages)).
Proof.
  intros relative compare C F r n Hn. unfold messageLimit in Hn.
  rewrite filterMessages_value, Hn, array_slice0_of_length.
  now rewrite length_firstn, array_sort_length.
Qed.

Lemma filterMessages_length_witness :
  messageLimit (self (start (sample_orchestrator (of_length 2)))) =
    of_length 2 /\
  length
    (fst (filterMessages fold_relative Message_compare
            ["a.ts"; "b.ts"; "c.ts"] sample_messages
            (start (sample_orchestrator (of_length 2))))) =
    Nat.min 2
      (length (List.filter (isFileChanged fold_relative
                              ["a.ts"; "b.ts"; "c.ts"]) sample_messages)).
Proof.
  split; [reflexivity|].
  exact (filterMessages_length fold_relative Message_compare
           ["a.ts"; "b.ts"; "c.ts"] sample_messages
           (start (sample_orchestrator (of_length 2))) 2 eq_refl).
Defined.

Lemma le_trunc_iff (n : Z) (q : Q) :
  0 <= n -> 0 <= Qnum q ->
  (n * Z.pos (Qden q) <= Qnum q <-> n <= Z.quot (Qnum q) (Z.pos (Qden q))).
Proof.
  intros Hn Hq. split; [now apply le_trunc|].
  intros H. pose proof (trunc_le q Hq). nia.
Qed.

Lemma array_slice0_NaN {A : Type} (l : list A) : array_slice0 NaN l = [].
Proof.
  unfold array_slice0; simpl. rewrite Z.min_l by lia. reflexivity.
Qed.

(** X6: the limits that are no finite number.  With NaN every finding is
    dropped and no limit line is written; with -Infinity every finding is
    dropped and the limit line is written; with +Infinity nothing is cut. *)
Theorem filterMessages_non_finite_limit :
  forall (relative : string -> string -> string)
         (compare : Message -> Message -> Z)
         (filesChanged : list string) (allMessages : list Message) (r : Run),
    (messageLimit (self r) = NaN ->
     filterMessages relative compare filesChanged allMessages r =
       ([],
        mkRun (self r)
          (trace r ++
           [LogDebug
              (RelevantLine
                 (length (List.filter (isFileChanged relative filesChanged)
                            allMessages))
                 (length allMessages))])
          (messagesToPost r))) /\
    (messageLimit (self r) = NegInfinity ->
     filterMessages relative compare filesChanged allMessages r =
       ([],
        mkRun (self r)
          (trace r ++
           [LogDebug
              (RelevantLine
                 (length (List.filter (isFileChanged relative filesChanged)
                            allMessages))
                 (length allMessages));
            LogDebug
              (LimitLine NegInfinity
                 (length (List.filter (isFileChanged relative filesChanged)
                            allMessages)))])
          (messagesToPost r))) /\
    (messageLimit (self r) = PosInfinity ->
     filterMessages relative compare filesChanged allMessages r =
       (array_sort compare
          (List.filter (isFileChanged relative filesChanged) allMessages),
        mkRun (self r)
          (trace r ++
           [LogDebug
              (RelevantLine
                 (length (List.filter (isFileChanged relative filesChanged)
                            allMessages))
                 (length allMessages))])
          (messagesToPost r))).
Proof.
  intros relative compare C F r. unfold messageLimit.
  repeat split; intros H;
    unfold filterMessages, bind, get_this, emit, ret; simpl; rewrite H;
    simpl.
  - now rewrite array_slice0_NaN.
  - now rewrite <- app_assoc, array_sort_length.
  - unfold array_slice0; simpl. now rewrite Nat2Z.id, firstn_all.
Qed.

(** X7: a negative whole limit [-k] does not empty the selection: it cuts
    the last [k] findings off the sorted relevant ones. *)
Theorem filterMessages_negative_limit :
  forall (relative : string -> string -> string)
         (compare : Message -> Message -> Z)
         (filesChanged : list string) (allMessages : list Message) (r : Run)
         (k : nat),
    (0 < k)%nat ->
    messageLimit (self r) = Num (inject_Z (- Z.of_nat k)) ->
    fst (filterMessages relative compare filesChanged allMessages r) =
      firstn
        (length (List.filter (isFileChanged relative filesChanged)
                   allMessages) - k)
        (array_sort compare
           (List.filter (isFileChanged relative filesChanged) allMessages)).
Proof.
  intros relative compare C F r k Hk Hlimit. unfold messageLimit in Hlimit.
  rewrite filterMessages_value, Hlimit. unfold array_slice0; simpl.
  rewrite Z.quot_1_r, array_sort_length.
  destruct (Z.ltb_spec (- Z.of_nat k) 0); [|lia]. f_equal. lia.
Qed.

Lemma filterMessages_negative_limit_witness :
  (0 < 1)%nat /\
  messageLimit (self (start (sample_orchestrator (Num (inject_Z (-1)))))) =
    Num (inject_Z (- Z.of_nat 1)) /\
  fst (filterMessages fold_relative Message_compare ["a.ts"; "b.ts"; "c.ts"]
         sample_messages (start (sample_orchestrator (Num (inject_Z (-1)))))) =
    firstn
      (length (List.filter (isFileChanged fold_relative
                              ["a.ts"; "b.ts"; "c.ts"]) sample_messages) - 1)
      (array_sort Message_compare
         (List.filter (isFileChanged fold_relative ["a.ts"; "b.ts"; "c.ts"])
            sample_messages)).
Proof.
  split; [lia|]. split; [reflexivity|].
  exact (filterMessages_negative_limit fold_relative Message_compare
           ["a.ts"; "b.ts"; "c.ts"] sample_messages
           (start (sample_orchestrator (Num (inject_Z (-1))))) 1
           (Nat.lt_0_succ 0) eq_refl).
Defined.

(** X8: the selection repeats no finding that the input does not repeat. *)
Theorem filterMessages_NoDup :
  forall (relative : string -> string -> string)
         (compare : Message -> Message -> Z)
         (filesChanged : list string) (allMessages : list Message) (r : Run),
    List.NoDup allMessages ->
    List.NoDup
      (fst (filterMessages relative compare filesChanged allMessages r)).
Proof.
  intros relative compare C F r H. rewrite filterMessages_value.
  destruct (array_slice0_split (_messageLimit (self r))
              (array_sort compare (List.filter (isFileChanged relative C) F)))
    as [dropped E].
  apply (NoDup_app_remove_r _ dropped). rewrite <- E.
  apply (Permutation_NoDup
           (l := List.filter (isFileChanged relative C) F)).
  - symmetry. apply array_sort_perm.
  - now apply List.NoDup_filter.
Qed.

Lemma filterMessages_NoDup_witness :
  List.NoDup sample_messages /\
  List.NoDup
    (fst (filterMessages fold_relative Message_compare
            ["a.ts"; "b.ts"; "c.ts"] sample_messages
            (start (sample_orchestrator default_messageLimit)))).
Proof.
  assert (H : List.NoDup sample_messages).
  { unfold sample_messages.
    repeat (constructor;
            [simpl; intros Hin;
             repeat (destruct Hin as [Hin|Hin]; [discriminate Hin|]);
             exact Hin|]).
    constructor. }
  split; [exact H|].
  exact (filterMessages_NoDup fold_relative Message_compare
           ["a.ts"; "b.ts"; "c.ts"] sample_messages
           (start (sample_orchestrator default_messageLimit)) H).
Defined.

(** X9: under a limit that is at least 0, the line about the limit is
    written exactly when the cap cuts findings off. *)
Theorem filterMessages_limit_line :
  forall (relative : string -> string -> string)
         (compare : Message -> Message -> Z)
         (filesChanged : list string) (allMessages : list Message) (r : Run),
    js_le (of_length 0) (messageLimit (self r)) = true ->
    exists events,
      trace (snd (filterMessages relative compare filesChanged allMessages r))
        = trace r ++ events /\
      ((exists limit kept, In (LogDebug (LimitLine limit kept)) events) <->
       (length
          (fst (filterMessages relative compare filesChanged allMessages r))
        < length (List.filter (isFileChanged relative filesChanged)
                    allMessages))%nat).
Proof.
  intros relative compare C F r Hlimit. unfold messageLimit in Hlimit.
  rewrite filterMessages_trace, filterMessages_value.
  eexists. split; [reflexivity|].
  set (rel := List.filter (isFileChanged relative C) F).
  rewrite array_sort_length.
  assert (Hcut :
    js_gt (of_length (length rel)) (_messageLimit (self r)) = true <->
    (length (array_slice0 (_messageLimit (self r)) (array_sort compare rel))
     < length rel)%nat).
  { unfold array_slice0. rewrite length_firstn, array_sort_length.
    revert Hlimit. unfold js_gt, of_length.
    destruct (_messageLimit (self r)) as [| | |q]; try (cbn; discriminate).
    - intros _. simpl. rewrite Nat2Z.id. split; [discriminate | lia].
    - rewrite js_le_Num, Qle_bool_inject_Z. intros Hq.
      assert (H0 : 0 <= Qnum q) by lia.
      pose proof (trunc_nonneg q H0) as Ht.
      pose proof (le_trunc_iff (Z.of_nat (length rel)) q ltac:(lia) H0) as Hi.
      cbn [js_lt ToIntegerOrInfinity]. unfold Qltb.
      rewrite negb_true_iff, <- not_true_iff_false, Qle_bool_inject_Z.
      destruct (Z.ltb_spec (Z.quot (Qnum q) (Z.pos (Qden q))) 0); [lia|].
      rewrite Hi. lia. }
  split.
  - intros (limit & kept & [Hin|Hin]); [discriminate Hin|].
    destruct (js_gt _ _); [now apply Hcut | contradiction].
  - intros Hlt. apply Hcut in Hlt. rewrite Hlt.
    do 2 eexists. right. now left.
Qed.

Lemma filterMessages_limit_line_witness :
  js_le (of_length 0) (Num (inject_Z 2)) = true /\
  exists events,
    trace (snd (filterMessages fold_relative Message_compare
                  ["a.ts"; "b.ts"; "c.ts"] sample_messages
                  (start (sample_orchestrator (Num (inject_Z 2))))))
      = trace (start (sample_orchestrator (Num (inject_Z 2)))) ++ events /\
    ((exists limit kept, In (LogDebug (LimitLine limit kept)) events) <->
     (length
        (fst (filterMessages fold_relative Message_compare
                ["a.ts"; "b.ts"; "c.ts"] sample_messages
                (start (sample_orchestrator (Num (inject_Z 2))))))
      < length (List.filter (isFileChanged fold_relative
                               ["a.ts"; "b.ts"; "c.ts"]) sample_messages))%nat).
Proof.
  split; [reflexivity|].
  exact (filterMessages_limit_line fold_relative Message_compare
           ["a.ts"; "b.ts"; "c.ts"] sample_messages
           (start (sample_orchestrator (Num (inject_Z 2)))) eq_refl).
Defined.

(** ** More about the workflow *)

Lemma log_lines_no_calls (lines : list LogLine) :
  List.filter is_call (map LogDebug lines) = [].
Proof. induction lines; simpl; auto. Qed.

(** X10: when the report processor throws, the call throws the same value;
    it has written one line and called the processor, and nothing else. *)
Theorem fetch_failure_propagates :
  forall (relative : string -> string -> string)
         (compare : Message -> Message -> Z)
         (sqReportPath : string) (r : Run) (e : JsError),
    FetchCommentsFromReport (sqReportProcessor (self r)) sqReportPath
      = Throw e ->
    postSonarQubeIssuesToPullRequest relative compare (JsValue sqReportPath) r
      = (Throw e,
         mkRun (self r)
           (trace r ++ [LogDebug (ReportPathLine (JsValue sqReportPath));
                        FetchCall sqReportPath])
           (messagesToPost r)).
Proof.
  intros relative compare path r e H. unfold_workflow. simpl. rewrite H.
  simpl. now rewrite <- app_assoc.
Qed.

Lemma fetch_failure_propagates_witness :
  FetchCommentsFromReport
    (sqReportProcessor
       (self (start (orchestrator_of throwing_processor sample_service))))
    "report.json" = Throw (Foreign 400) /\
  postSonarQubeIssuesToPullRequest fold_relative Message_compare
    (JsValue "report.json")
    (start (orchestrator_of throwing_processor sample_service))
    = (Throw (Foreign 400),
       mkRun (orchestrator_of throwing_processor sample_service)
         [LogDebug (ReportPathLine (JsValue "report.json"));
          FetchCall "report.json"]
         JsNull).
Proof.
  split; [reflexivity|].
  exact (fetch_failure_propagates fold_relative Message_compare "report.json"
           (start (orchestrator_of throwing_processor sample_service))
           (Foreign 400) eq_refl).
Defined.

(** X11: when the request for the changed files is rejected, no run selects
    findings, makes the delete call or makes the create call; a run that
    made the request returns a promise rejected with the same reason. *)
Theorem modified_files_failure_aborts :
  forall (relative : string -> string -> string)
         (compare : Message -> Message -> Z)
         (sqReportPath : JsOpt string) (r : Run) (e : JsError),
    getModifiedFilesInPr (PrcaService (self r)) = Normal (Rejected e) ->
    exists events,
      trace (snd (postSonarQubeIssuesToPullRequest relative compare
                    sqReportPath r)) = trace r ++ events /\
      ~ In DeleteCall events /\
      (forall messages, ~ In (CreateCall messages) events) /\
      (forall kept allMessages,
          ~ In (LogDebug (RelevantLine kept allMessages)) events) /\
      (In ModifiedFilesCall events ->
       fst (postSonarQubeIssuesToPullRequest relative compare sqReportPath r)
         = Normal (Rejected e)).
Proof.
  intros relative compare path r e Hfiles. unfold_workflow.
  destruct path as [| |path]; simpl.
  3: destruct (FetchCommentsFromReport _ path) as [allMessages|e0]; simpl.
  3: rewrite Hfiles; simpl.
  all: rewrite <- ?app_assoc; simpl.
  all: eexists; (split; [reflexivity|]).
  all: repeat split; try intros ? ? Hin; try intros ? Hin; try intros Hin.
  all: simpl in Hin; no_such_event; reflexivity.
Qed.

Lemma modified_files_failure_aborts_witness :
  getModifiedFilesInPr
    (PrcaService
       (self (start (orchestrator_of sample_processor failing_files_service))))
    = Normal (Rejected (Foreign 401)) /\
  exists events,
    trace (snd (postSonarQubeIssuesToPullRequest fold_relative Message_compare
                  (JsValue "report.json")
                  (start (orchestrator_of sample_processor
                            failing_files_service)))) =
      trace (start (orchestrator_of sample_processor failing_files_service))
        ++ events /\
    ~ In DeleteCall events /\
    (forall messages, ~ In (CreateCall messages) events) /\
    (forall kept allMessages,
        ~ In (LogDebug (RelevantLine kept allMessages)) events) /\
    (In ModifiedFilesCall events ->
     fst (postSonarQubeIssuesToPullRequest fold_relative Message_compare
            (JsValue "report.json")
            (start (orchestrator_of sample_processor failing_files_service)))
       = Normal (Rejected (Foreign 401))).
Proof.
  split; [reflexivity|].
  exact (modified_files_failure_aborts fold_relative Message_compare
           (JsValue "report.json")
           (start (orchestrator_of sample_processor failing_files_service))
           (Foreign 401) eq_refl).
Defined.

(** X12: when the report is read, the changed files arrive and the delete
    call succeeds, the run makes the four calls once each, in the order
    fetch, changed files, delete, create; the create call gets exactly the
    selection, the line before it states its length, and the promise
    returned is the one the create call answered with. *)
Theorem successful_run :
  forall (relative : string -> string -> string)
         (compare : Message -> Message -> Z)
         (sqReportPath : string) (r : Run)
         (allMessages : list Message) (filesChanged : list string) (u : unit),
    FetchCommentsFromReport (sqReportProcessor (self r)) sqReportPath
      = Normal allMessages ->
    getModifiedFilesInPr (PrcaService (self r))
      = Normal (Fulfilled filesChanged) ->
    deleteCodeAnalysisComments (PrcaService (self r)) = Fulfilled u ->
    exists lines,
      postSonarQubeIssuesToPullRequest relative compare
        (JsValue sqReportPath) r =
      (Normal
         (createCodeAnalysisThreads (PrcaService (self r))
            (fst (filterMessages relative compare filesChanged
                    allMessages r))),
       mkRun (self r)
         (trace r ++
          [LogDebug (ReportPathLine (JsValue sqReportPath));
           FetchCall sqReportPath;
           ModifiedFilesCall;
           LogDebug (ChangedFilesLine (length filesChanged))] ++
          map LogDebug lines ++
          [DeleteCall;
           LogDebug
             (ToPostLine
                (length
                   (fst (filterMessages relative compare filesChanged
                           allMessages r))));
           CreateCall
             (fst (filterMessages relative compare filesChanged
                     allMessages r))])
         (JsValue
            (fst (filterMessages relative compare filesChanged
                    allMessages r)))).
Proof.
  intros relative compare path r all files u Hfetch Hfiles Hdel.
  rewrite (filterMessages_value relative compare files all r).
  unfold_workflow. simpl. rewrite Hfetch. simpl. rewrite Hfiles. simpl.
  rewrite_filterMessages. simpl. rewrite Hdel. simpl.
  exists lines. rewrite <- !app_assoc. reflexivity.
Qed.

Lemma successful_run_witness :
  FetchCommentsFromReport
    (sqReportProcessor
       (self (start (orchestrator_of sample_processor
                       failing_create_service)))) "report.json"
    = Normal sample_messages /\
  getModifiedFilesInPr
    (PrcaService
       (self (start (orchestrator_of sample_processor
                       failing_create_service))))
    = Normal (Fulfilled ["a.ts"; "b.ts"; "c.ts"]) /\
  deleteCodeAnalysisComments
    (PrcaService
       (self (start (orchestrator_of sample_processor
                       failing_create_service))))
    = Fulfilled tt /\
  fst (postSonarQubeIssuesToPullRequest fold_relative Message_compare
         (JsValue "report.json")
         (start (orchestrator_of sample_processor failing_create_service)))
    = Normal (Rejected (Foreign 500)).
Proof.
  split; [reflexivity|]. split; [reflexivity|]. split; [reflexivity|].
  destruct (successful_run fold_relative Message_compare "report.json"
              (start (orchestrator_of sample_processor failing_create_service))
              sample_messages ["a.ts"; "b.ts"; "c.ts"] tt
              eq_refl eq_refl eq_refl) as [lines E].
  rewrite E. reflexivity.
Defined.

Ltac close_calls :=
  eexists; (split; [reflexivity|]);
  (split;
   [ simpl; rewrite ?List.filter_app, ?log_lines_no_calls; simpl; reflexivity
   | ]);
  repeat split; intros;
  repeat match goal with
         | H : In _ _ |- _ =>
             progress (simpl in H; rewrite ?in_app_iff in H; simpl in H)
         end;
  no_such_event;
  try match goal with H : FetchCall _ = FetchCall _ |- _ =>
        injection H as <- end;
  eauto.

(** X13: whatever the collaborators answer, the calls a run makes are an
    initial part of: fetch, changed files, delete, create; and no call is
    made after a step that failed: the fetch call needs a report path, the
    request for the changed files a report that was read, the delete call
    changed files that arrived, the create call a delete call that
    succeeded. *)
Theorem calls_in_order :
  forall (relative : string -> string -> string)
         (compare : Message -> Message -> Z)
         (sqReportPath : JsOpt string) (r : Run),
  exists events path messages rest,
    trace (snd (postSonarQubeIssuesToPullRequest relative compare
                  sqReportPath r)) = trace r ++ events /\
    List.filter is_call events ++ rest =
      [FetchCall path; ModifiedFilesCall; DeleteCall; CreateCall messages] /\
    (forall p, In (FetchCall p) events -> sqReportPath = JsValue p) /\
    (In ModifiedFilesCall events ->
     exists p allMessages,
       sqReportPath = JsValue p /\
       FetchCommentsFromReport (sqReportProcessor (self r)) p
         = Normal allMessages) /\
    (In DeleteCall events ->
     exists filesChanged,
       getModifiedFilesInPr (PrcaService (self r))
         = Normal (Fulfilled filesChanged)) /\
    (forall posted,
        In (CreateCall posted) events ->
        exists u,
          deleteCodeAnalysisComments (PrcaService (self r)) = Fulfilled u).
Proof.
  intros relative compare path r. unfold_workflow.
  destruct path as [| |path]; simpl.
  3: destruct (FetchCommentsFromReport _ path) as [allMessages|e0] eqn:Hfetch;
     simpl.
  3: destruct (getModifiedFilesInPr _) as [[filesChanged|e1|]|e1] eqn:Hfiles;
     simpl.
  3: rewrite_filterMessages; simpl;
     destruct (deleteCodeAnalysisComments _) as [u|e2|] eqn:Hdel; simpl.
  all: rewrite <- ?app_assoc; simpl.
  all: eexists.
  all: first
    [ exists "", []; close_calls
    | eexists; exists []; close_calls
    | eexists; eexists; close_calls ].
Qed.

(** A create call is made only at the end of a run in which every earlier
    step succeeded, and with the selection as its argument. *)
Lemma create_call_inversion (relative : string -> string -> string)
    (compare : Message -> Message -> Z) (sqReportPath : JsOpt string)
    (r : Run) :
  exists events,
    trace (snd (postSonarQubeIssuesToPullRequest relative compare
                  sqReportPath r)) = trace r ++ events /\
    forall messages,
      In (CreateCall messages) events ->
      exists path allMessages filesChanged u,
        sqReportPath = JsValue path /\
        FetchCommentsFromReport (sqReportProcessor (self r)) path
          = Normal allMessages /\
        getModifiedFilesInPr (PrcaService (self r))
          = Normal (Fulfilled filesChanged) /\
        deleteCodeAnalysisComments (PrcaService (self r)) = Fulfilled u /\
        messages =
          array_slice0 (_messageLimit (self r))
            (array_sort compare
               (List.filter (isFileChanged relative filesChanged)
                  allMessages)).
Proof.
  unfold_workflow.
  destruct sqReportPath as [| |path]; simpl.
  3: destruct (FetchCommentsFromReport _ path) as [allMessages|e0] eqn:Hfetch;
     simpl.
  3: destruct (getModifiedFilesInPr _) as [[filesChanged|e1|]|e1] eqn:Hfiles;
     simpl.
  3: rewrite_filterMessages; simpl;
     destruct (deleteCodeAnalysisComments _) as [u|e2|] eqn:Hdel; simpl.
  all: rewrite <- ?app_assoc; simpl.
  all: eexists; (split; [reflexivity|]).
  all: intros messages Hin.
  all: simpl in Hin; rewrite ?in_app_iff in Hin; simpl in Hin.
  all: no_such_event.
  match goal with H : CreateCall _ = CreateCall _ |- _ =>
    injection H as <- end.
  exists path, allMessages, filesChanged, u. auto.
Qed.

(** X14: with a logger that does not throw (the contract of [ILogger]),
    an exception of the call itself has one of three origins: the missing
    report path, a throw of the report processor, or a throw of
    [getModifiedFilesInPr] at the call (where an answer without [then]
    also ends up).  It comes before any selection, delete call or create
    call; failures from there on are rejections of the promise. *)
Theorem synchronous_throw_origin :
  forall (relative : string -> string -> string)
         (compare : Message -> Message -> Z)
         (sqReportPath : JsOpt string) (r : Run) (e : JsError),
    fst (postSonarQubeIssuesToPullRequest relative compare sqReportPath r)
      = Throw e ->
    ((is_null_or_undefined sqReportPath = true /\ e = invalid_input) \/
     (exists path,
         sqReportPath = JsValue path /\
         FetchCommentsFromReport (sqReportProcessor (self r)) path = Throw e)
     \/
     (exists path allMessages,
         sqReportPath = JsValue path /\
         FetchCommentsFromReport (sqReportProcessor (self r)) path
           = Normal allMessages /\
         getModifiedFilesInPr (PrcaService (self r)) = Throw e))
    /\
    exists events,
      trace (snd (postSonarQubeIssuesToPullRequest relative compare
                    sqReportPath r)) = trace r ++ events /\
      (forall kept allMessages,
          ~ In (LogDebug (RelevantLine kept allMessages)) events) /\
      ~ In DeleteCall events /\
      (forall messages, ~ In (CreateCall messages) events).
Proof.
  intros relative compare path r e. unfold_workflow.
  destruct path as [| |path]; simpl.
  3: destruct (FetchCommentsFromReport _ path) as [allMessages|e0] eqn:Hfetch;
     simpl.
  3: destruct (getModifiedFilesInPr _) as [[filesChanged|e1|]|e1] eqn:Hfiles;
     simpl.
  3: rewrite_filterMessages; simpl;
     destruct (deleteCodeAnalysisComments _) as [u|e2|]; simpl.
  all: intros Hthrow; try discriminate Hthrow.
  all: injection Hthrow as <-.
  all: (split;
        [first [ left; split; reflexivity
               | right; left; solve [eauto]
               | right; right; solve [eauto 10] ]|]).
  all: rewrite <- ?app_assoc; simpl.
  all: eexists; (split; [reflexivity|]).
  all: repeat split; try intros ? ? Hin; try intros ? Hin; try intros Hin.
  all: simpl in Hin; no_such_event.
Qed.

Lemma synchronous_throw_origin_witness :
  fst (postSonarQubeIssuesToPullRequest fold_relative Message_compare
         (JsValue "report.json")
         (start (orchestrator_of sample_processor throwing_files_service)))
    = Throw (TypeError "getModifiedFilesInPr") /\
  exists events,
    trace (snd (postSonarQubeIssuesToPullRequest fold_relative Message_compare
                  (JsValue "report.json")
                  (start (orchestrator_of sample_processor
                            throwing_files_service)))) =
      trace (start (orchestrator_of sample_processor throwing_files_service))
        ++ events /\
    (forall kept allMessages,
        ~ In (LogDebug (RelevantLine kept allMessages)) events) /\
    ~ In DeleteCall events /\
    (forall messages, ~ In (CreateCall messages) events).
Proof.
  split; [reflexivity|].
  exact (proj2 (synchronous_throw_origin fold_relative Message_compare
                  (JsValue "report.json")
                  (start (orchestrator_of sample_processor
                            throwing_files_service))
                  (TypeError "getModifiedFilesInPr") eq_refl)).
Defined.

(** The run of the witness: the exception leaves the call after the report
    was fetched and the request made. *)
Example throwing_files_run :
  postSonarQubeIssuesToPullRequest fold_relative Message_compare
    (JsValue "report.json")
    (start (orchestrator_of sample_processor throwing_files_service)) =
  (Throw (TypeError "getModifiedFilesInPr"),
   mkRun (orchestrator_of sample_processor throwing_files_service)
     [ LogDebug (ReportPathLine (JsValue "report.json"));
       FetchCall "report.json";
       ModifiedFilesCall ]
     JsNull).
Proof. reflexivity. Qed.

(** X15: whatever a run hands to the create call is the selection made from
    the report's findings and the changed files the service gave, after a
    delete call that succeeded: every finding handed over is in the report
    and on a changed file, and under a limit that is at least 0 they are no
    more than the limit. *)
Theorem posted_messages_are_selected :
  forall (relative : string -> string -> string)
         (compare : Message -> Message -> Z)
         (sqReportPath : JsOpt string) (r : Run),
  exists events,
    trace (snd (postSonarQubeIssuesToPullRequest relative compare
                  sqReportPath r)) = trace r ++ events /\
    forall messages,
      In (CreateCall messages) events ->
      exists path allMessages filesChanged u,
        sqReportPath = JsValue path /\
        FetchCommentsFromReport (sqReportProcessor (self r)) path
          = Normal allMessages /\
        getModifiedFilesInPr (PrcaService (self r))
          = Normal (Fulfilled filesChanged) /\
        deleteCodeAnalysisComments (PrcaService (self r)) = Fulfilled u /\
        messages =
          fst (filterMessages relative compare filesChanged allMessages r) /\
        (forall m,
            In m messages ->
            In m allMessages /\
            exists fileChanged, In fileChanged filesChanged /\
                                relative fileChanged (file m) = "") /\
        (js_le (of_length 0) (messageLimit (self r)) = true ->
         js_le (of_length (length messages)) (messageLimit (self r)) = true).
Proof.
  intros relative compare path r.
  destruct (create_call_inversion relative compare path r)
    as (events & Htrace & Hcreate).
  exists events. split; [exact Htrace|]. intros messages Hin.
  destruct (Hcreate messages Hin)
    as (p & all & files & u & Hp & Hfetch & Hfiles & Hdel & ->).
  exists p, all, files, u. rewrite filterMessages_value.
  repeat (split; [assumption || reflexivity|]). split.
  - intros m Hm. apply array_slice0_In, array_sort_In, filter_In in Hm.
    destruct Hm as [Hall Hrel]. split; [exact Hall|].
    now apply isFileChanged_true.
  - unfold messageLimit. apply array_slice0_length_le.
Qed.

(** X16: an orchestrator constructed without a limit never hands more than
    100 findings to the create call. *)
Theorem default_limit_caps_posts :
  forall (relative : string -> string -> string)
         (compare : Message -> Message -> Z)
         (log : ILogger) (p : ISonarQubeReportProcessor) (s : IPrcaService)
         (limit : JsOpt JsNumber) (this : PrcaOrchestrator)
         (sqReportPath : JsOpt string) (r : Run),
    is_null_or_undefined limit = true ->
    constructor log (JsValue p) (JsValue s) limit = Normal this ->
    self r = this ->
    exists events,
      trace (snd (postSonarQubeIssuesToPullRequest relative compare
                    sqReportPath r)) = trace r ++ events /\
      forall messages,
        In (CreateCall messages) events -> (length messages <= 100)%nat.
Proof.
  intros relative compare log p s limit this path r Hlimit Hnew Hself.
  assert (H100 : _messageLimit (self r) = of_length 100).
  { rewrite Hself. destruct limit; try discriminate Hlimit;
      injection Hnew as <-; reflexivity. }
  destruct (create_call_inversion relative compare path r)
    as (events & Htrace & Hcreate).
  exists events. split; [exact Htrace|]. intros messages Hin.
  destruct (Hcreate messages Hin)
    as (_ & all & files & _ & _ & _ & _ & _ & ->).
  rewrite H100, array_slice0_of_length, length_firstn. lia.
Qed.

Lemma default_limit_caps_posts_witness :
  is_null_or_undefined (@JsUndefined JsNumber) = true /\
  constructor TraceLogger (JsValue sample_processor) (JsValue sample_service)
    JsUndefined = Normal (sample_orchestrator default_messageLimit) /\
  exists events,
    trace (snd (postSonarQubeIssuesToPullRequest fold_relative Message_compare
                  (JsValue "report.json")
                  (start (sample_orchestrator default_messageLimit)))) =
      trace (start (sample_orchestrator default_messageLimit)) ++ events /\
    forall messages,
      In (CreateCall messages) events -> (length messages <= 100)%nat.
Proof.
  split; [reflexivity|]. split; [reflexivity|].
  exact (default_limit_caps_posts fold_relative Message_compare TraceLogger
           sample_processor sample_service JsUndefined
           (sample_orchestrator default_messageLimit)
           (JsValue "report.json")
           (start (sample_orchestrator default_messageLimit))
           eq_refl eq_refl eq_refl).
Defined.
